(** * Reservations and waitlist of the pickleball court server

    A shallow embedding of the reservation and waitlist handlers of the
    Express server (POST/PATCH/DELETE on /api/reservations and
    /api/waitlist) over the SQLite schema that [init_db.js] creates.

    Conventions of the model
    - A table is the list of its rows in insertion order.
    - Integers are unbounded; of the 64-bit limit of SQLite only the
      refusal of a new id outside the range is modelled.
    - A column declared NOT NULL holds a value; a value sent by a client or
      a column that may be NULL is an [option], [None] being SQL NULL.
    - A time (TEXT) is seen through what [datetime()] makes of it: [TBad] is
      a text that [datetime()] cannot read (it yields NULL) and [TAt t] a
      text that [datetime()] reads as instant [t].  The texts [datetime()]
      returns compare like the instants they denote.
    - Values sent by a client have the declared type of their column, or are
      null.
    - The PATCH handlers splice the keys of the body into the text of the
      UPDATE.  The model represents the bodies whose keys are names of
      columns written as the schema writes them, and keys that SQLite
      resolves to nothing; what SQLite does with any other key (an alias
      of the rowid, a column name in another letter case, a fragment of
      SQL) is not represented, and the properties that depend on it are
      stated for bodies without such keys.
    - The invariant of the reservations is stated for handlers run one
      after the other; the await points of two handlers in flight are
      modelled only where an interleaving is exhibited
      ([interleaved_waitlist_updates]).
    - [parseInt] of the route parameter is taken to be an integer; NaN acts
      like an id that no row has.
    - Foreign keys are declared but SQLite does not enforce them unless asked
      (the server never sets the pragma), so they are not checked.
    - Each handler is run from its first statement to its response; database
      writes made before an exception is caught are kept, as the server opens
      no transaction. *)

From Stdlib Require Import ZArith List String Bool Lia.
Import ListNotations.

Local Open Scope string_scope.
Local Open Scope Z_scope.

(** ** SQL values and three-valued logic *)

Definition sqlint := option Z.

Inductive timeval : Type :=
| TBad
| TAt (t : Z).

(** [datetime(x)]: NULL unless [x] is a readable date. *)
Definition datetime (v : option timeval) : option Z :=
  match v with
  | Some (TAt t) => Some t
  | _ => None
  end.

Definition sql_le (a b : option Z) : option bool :=
  match a, b with
  | Some x, Some y => Some (x <=? y)
  | _, _ => None
  end.

Definition sql_ge (a b : option Z) : option bool :=
  match a, b with
  | Some x, Some y => Some (x >=? y)
  | _, _ => None
  end.

Definition sql_eq (a b : option Z) : option bool :=
  match a, b with
  | Some x, Some y => Some (x =? y)
  | _, _ => None
  end.

Definition sql_or (a b : option bool) : option bool :=
  match a, b with
  | Some true, _ => Some true
  | _, Some true => Some true
  | Some false, Some false => Some false
  | _, _ => None
  end.

Definition sql_and (a b : option bool) : option bool :=
  match a, b with
  | Some false, _ => Some false
  | _, Some false => Some false
  | Some true, Some true => Some true
  | _, _ => None
  end.

Definition sql_not (a : option bool) : option bool :=
  option_map negb a.

(** [x IN (s1, ..., sn)] on a TEXT value. *)
Definition sql_in (v : option string) (l : list string) : option bool :=
  match v with
  | None => None
  | Some s => Some (existsb (String.eqb s) l)
  end.

(** A WHERE clause keeps the rows on which it is true (not false, not NULL). *)
Definition sql_true (b : option bool) : bool :=
  match b with
  | Some true => true
  | _ => false
  end.

(** A CHECK constraint fails only when it is false: NULL passes. *)
Definition sql_check (b : option bool) : bool :=
  match b with
  | Some false => false
  | _ => true
  end.

(** ** Schema (init_db.js) *)

Record court : Type := {
  c_id : Z;
  c_is_active : sqlint
}.

Record player : Type := {
  p_id : Z
}.

Record reservation : Type := {
  r_id : Z;
  r_court_id : Z;
  r_player_id : Z;
  r_start_time : timeval;
  r_end_time : timeval;
  r_status : option string;
  r_price_cents : sqlint;
  r_created_at : option timeval
}.

Record waitlist_entry : Type := {
  w_id : Z;
  w_court_id : Z;
  w_player_id : Z;
  w_start_time : timeval;
  w_end_time : timeval;
  w_priority : sqlint;
  w_status : option string;
  w_created_at : option timeval
}.

Definition reservations_columns : list string :=
  ["id"; "court_id"; "player_id"; "start_time"; "end_time"; "status";
   "price_cents"; "created_at"].

Definition reservation_statuses : list string :=
  ["booked"; "cancelled"; "completed"].

Definition waitlist_statuses : list string :=
  ["waiting"; "notified"; "booked"; "cancelled"; "expired"].

(** [seq_reservations] and [seq_waitlist] are the AUTOINCREMENT counters
    (table sqlite_sequence): the largest id ever given out. *)
Record db : Type := {
  courts : list court;
  players : list player;
  reservations : list reservation;
  waitlist : list waitlist_entry;
  seq_reservations : Z;
  seq_waitlist : Z
}.

Definition set_reservations (d : db) (rs : list reservation) (s : Z) : db :=
  {| courts := courts d; players := players d; reservations := rs;
     waitlist := waitlist d; seq_reservations := s;
     seq_waitlist := seq_waitlist d |}.

Definition set_waitlist (d : db) (ws : list waitlist_entry) (s : Z) : db :=
  {| courts := courts d; players := players d; reservations := reservations d;
     waitlist := ws; seq_reservations := seq_reservations d;
     seq_waitlist := s |}.

(** ** Exceptions, handler computations and responses *)

Inductive sql_error : Type :=
| SyntaxError
| NoSuchColumn (c : string)
| DatatypeMismatch
| NotNullFailed (c : string)
| CheckFailed
| UniqueFailed.

Inductive error : Type :=
| ReferenceError (name : string)
| TypeError
| SqlError (e : sql_error).

Inductive result (A : Type) : Type :=
| Ok (a : A)
| Threw (e : error).
Arguments Ok {A} a.
Arguments Threw {A} e.

(** A handler body: it reads and writes the database and either yields a
    value or throws; the writes made before a throw stay. *)
Definition M (A : Type) : Type := db -> db * result A.

Definition ret {A} (a : A) : M A := fun d => (d, Ok a).

Definition throw {A} (e : error) : M A := fun d => (d, Threw e).

Definition bind {A B} (c : M A) (k : A -> M B) : M B :=
  fun d =>
    match c d with
    | (d', Ok a) => k a d'
    | (d', Threw e) => (d', Threw e)
    end.

Definition lift {A} (r : result A) : M A := fun d => (d, r).

Definition get_db : M db := fun d => (d, Ok d).

Definition put_db (d' : db) : M unit := fun _ => (d', Ok tt).

Declare Scope handler_scope.
Delimit Scope handler_scope with handler.
Notation "x <- c ;; k" := (bind c (fun x => k))
  (at level 61, c at next level, right associativity) : handler_scope.
Notation "c ;;; k" := (bind c (fun _ => k))
  (at level 61, right associativity) : handler_scope.

Inductive body : Type :=
| BReservation (r : option reservation)
| BWaitlist (w : option waitlist_entry)
| BError (e : error)
| BText (msg : string)
| BOk.

Record response : Type := {
  code : Z;
  payload : body
}.

Definition respond (c : Z) (b : body) : response :=
  {| code := c; payload := b |}.

(** [try { ... } catch (err) { res.status(500).json({ error: err.message }) }] *)
Definition try_catch (c : M response) : db -> db * response :=
  fun d =>
    match c d with
    | (d', Ok r) => (d', r)
    | (d', Threw e) => (d', respond 500 (BError e))
    end.

(** Reading an identifier that no enclosing scope binds throws. *)
Definition module_scope : list string :=
  ["express"; "sqlite3"; "cors"; "path"; "fileURLToPath"; "__filename";
   "__dirname"; "app"; "dbFile"; "db"; "runAsync"; "getAsync"; "allAsync";
   "PORT"].

Definition identifier (scope : list string) (name : string) : M unit :=
  if existsb (String.eqb name) scope then ret tt
  else throw (ReferenceError name).

(** ** Statements on the tables *)

Local Open Scope handler_scope.

(** The conflict query of both handlers:
    [court_id = ? AND status IN ('booked','completed')
     AND NOT (datetime(end_time) <= datetime(?)
              OR datetime(start_time) >= datetime(?))]
    with parameters [court_id, start_time, end_time]. *)
Definition conflict_where (court_id : sqlint)
    (start_time end_time : option timeval) (r : reservation) : option bool :=
  sql_and
    (sql_and (sql_eq (Some (r_court_id r)) court_id)
             (sql_in (r_status r) ["booked"; "completed"]))
    (sql_not
       (sql_or (sql_le (datetime (Some (r_end_time r))) (datetime start_time))
               (sql_ge (datetime (Some (r_start_time r))) (datetime end_time)))).

Definition conflict_query (rs : list reservation) (court_id : sqlint)
    (start_time end_time : option timeval) : list Z :=
  map r_id
      (filter (fun r => sql_true (conflict_where court_id start_time end_time r))
              rs).

Definition is_null {A} (v : option A) : bool :=
  match v with
  | None => true
  | Some _ => false
  end.

(** A NOT NULL column takes no NULL. *)
Definition not_null {A} (column : string) (v : option A) : result A :=
  match v with
  | Some x => Ok x
  | None => Threw (SqlError (NotNullFailed column))
  end.

Definition check_status (status : option string) (allowed : list string)
    : result unit :=
  if sql_check (sql_in status allowed) then Ok tt
  else Threw (SqlError CheckFailed).

Definition max_id (ids : list Z) : Z := fold_right Z.max 0 ids.

(** AUTOINCREMENT: one more than the largest id ever used in the table. *)
Definition next_id (seq : Z) (ids : list Z) : Z := Z.max seq (max_id ids) + 1.

(** A prepared statement names only columns of its table. *)
Fixpoint check_columns (named schema : list string) : result unit :=
  match named with
  | [] => Ok tt
  | c :: rest =>
      if existsb (String.eqb c) schema then check_columns rest schema
      else Threw (SqlError (NoSuchColumn c))
  end.

(** [INSERT INTO reservations (court_id, player_id, start_time, end_time,
    status, price_cents, ...) VALUES (...)]; yields [lastID].  The column
    created_at takes its default, [datetime('now')]. *)
Definition insert_reservation (now : Z) (court_id player_id : sqlint)
    (start_time end_time : option timeval) (status : option string)
    (price_cents : sqlint) : M Z :=
  c <- lift (not_null "court_id" court_id) ;;
  p <- lift (not_null "player_id" player_id) ;;
  s <- lift (not_null "start_time" start_time) ;;
  e <- lift (not_null "end_time" end_time) ;;
  lift (check_status status reservation_statuses) ;;;
  d <- get_db ;;
  let id := next_id (seq_reservations d) (map r_id (reservations d)) in
  put_db (set_reservations d
            (reservations d ++
               [{| r_id := id; r_court_id := c; r_player_id := p;
                   r_start_time := s; r_end_time := e; r_status := status;
                   r_price_cents := price_cents;
                   r_created_at := Some (TAt now) |}])
            id) ;;;
  ret id.

(** [INSERT INTO waitlist (court_id, player_id, start_time, end_time,
    priority, status) VALUES (...)]; yields [lastID]. *)
Definition insert_waitlist (now : Z) (court_id player_id : sqlint)
    (start_time end_time : option timeval) (priority : sqlint)
    (status : option string) : M Z :=
  c <- lift (not_null "court_id" court_id) ;;
  p <- lift (not_null "player_id" player_id) ;;
  s <- lift (not_null "start_time" start_time) ;;
  e <- lift (not_null "end_time" end_time) ;;
  lift (check_status status waitlist_statuses) ;;;
  d <- get_db ;;
  let id := next_id (seq_waitlist d) (map w_id (waitlist d)) in
  put_db (set_waitlist d
            (waitlist d ++
               [{| w_id := id; w_court_id := c; w_player_id := p;
                   w_start_time := s; w_end_time := e; w_priority := priority;
                   w_status := status; w_created_at := Some (TAt now) |}])
            id) ;;;
  ret id.

(** [JOIN courts c ON c.id = x.court_id JOIN players p ON p.id = x.player_id] *)
Definition joins (d : db) (court_id player_id : Z) : bool :=
  existsb (fun c => c_id c =? court_id) (courts d)
  && existsb (fun p => p_id p =? player_id) (players d).

(** [getAsync] of the joined SELECT with [WHERE r.id = ?]: the row, or
    [undefined] ([None]) when there is none. *)
Definition select_reservation (id : Z) : M (option reservation) :=
  d <- get_db ;;
  ret (find (fun r => (r_id r =? id) && joins d (r_court_id r) (r_player_id r))
            (reservations d)).

Definition select_waitlist (id : Z) : M (option waitlist_entry) :=
  d <- get_db ;;
  ret (find (fun w => (w_id w =? id) && joins d (w_court_id w) (w_player_id w))
            (waitlist d)).

(** [DELETE FROM reservations WHERE id = ?] *)
Definition delete_reservation (id : Z) : M unit :=
  d <- get_db ;;
  put_db (set_reservations d
            (filter (fun r => negb (r_id r =? id)) (reservations d))
            (seq_reservations d)).

(** [DELETE FROM waitlist WHERE id = ?] *)
Definition delete_waitlist (id : Z) : M unit :=
  d <- get_db ;;
  put_db (set_waitlist d
            (filter (fun w => negb (w_id w =? id)) (waitlist d))
            (seq_waitlist d)).

(** ** PATCH bodies

    [Object.keys(fields)] of a PATCH body: for each column of the table
    whether the key, written as in the schema, is present ([Some v], with
    [v = None] for null) or not ([None]), and the other keys, taken to be
    keys that SQLite resolves to no column. *)

Record reservation_fields : Type := {
  rf_id : option sqlint;
  rf_court_id : option sqlint;
  rf_player_id : option sqlint;
  rf_start_time : option (option timeval);
  rf_end_time : option (option timeval);
  rf_status : option (option string);
  rf_price_cents : option sqlint;
  rf_created_at : option (option timeval);
  rf_other : list string
}.

Record waitlist_fields : Type := {
  wf_id : option sqlint;
  wf_court_id : option sqlint;
  wf_player_id : option sqlint;
  wf_start_time : option (option timeval);
  wf_end_time : option (option timeval);
  wf_priority : option sqlint;
  wf_status : option (option string);
  wf_created_at : option (option timeval);
  wf_other : list string
}.

Definition rf_no_keys (f : reservation_fields) : bool :=
  is_null (rf_id f) && is_null (rf_court_id f) && is_null (rf_player_id f)
  && is_null (rf_start_time f) && is_null (rf_end_time f)
  && is_null (rf_status f) && is_null (rf_price_cents f)
  && is_null (rf_created_at f)
  && match rf_other f with [] => true | _ => false end.

Definition wf_no_keys (f : waitlist_fields) : bool :=
  is_null (wf_id f) && is_null (wf_court_id f) && is_null (wf_player_id f)
  && is_null (wf_start_time f) && is_null (wf_end_time f)
  && is_null (wf_priority f) && is_null (wf_status f)
  && is_null (wf_created_at f)
  && match wf_other f with [] => true | _ => false end.

(** [SET col = ?] on a column that may be NULL. *)
Definition upd {A} (u : option A) (old : A) : A :=
  match u with
  | Some v => v
  | None => old
  end.

(** [SET col = ?] on a NOT NULL column (a null is refused by [check_set]
    before any row is written). *)
Definition upd_not_null {A} (u : option (option A)) (old : A) : A :=
  match u with
  | Some (Some v) => v
  | _ => old
  end.

Definition sets_null {A} (column : string) (u : option (option A))
    : result unit :=
  match u with
  | Some None => Threw (SqlError (NotNullFailed column))
  | _ => Ok tt
  end.

(** Constraints on the values a SET clause assigns: the primary key must be
    an integer, the NOT NULL columns must not become NULL, the status must
    pass its CHECK. *)
Definition and_then {A} (a : result unit) (b : result A) : result A :=
  match a with
  | Ok _ => b
  | Threw e => Threw e
  end.

(** A rowid is a signed 64-bit integer. *)
Definition rowid_in_range (v : Z) : bool :=
  (- 2 ^ 63 <=? v) && (v <=? 2 ^ 63 - 1).

Definition check_new_id (id : option sqlint) : result unit :=
  match id with
  | Some None => Threw (SqlError DatatypeMismatch)
  | Some (Some v) =>
      if rowid_in_range v then Ok tt else Threw (SqlError DatatypeMismatch)
  | None => Ok tt
  end.

Definition check_set (id court_id player_id : option sqlint)
    (start_time end_time : option (option timeval))
    (status : option (option string)) (allowed : list string)
    : result unit :=
  and_then (check_new_id id)
    (and_then (sets_null "court_id" court_id)
       (and_then (sets_null "player_id" player_id)
          (and_then (sets_null "start_time" start_time)
             (and_then (sets_null "end_time" end_time)
                match status with
                | Some v => check_status v allowed
                | None => Ok tt
                end)))).

(** The primary key stays unique: a row may take a new id only if no row
    has it. *)
Definition check_unique (id : Z) (new_id : option sqlint) (ids : list Z)
    : result unit :=
  match new_id with
  | Some (Some v) =>
      if negb (v =? id) && existsb (Z.eqb v) ids
      then Threw (SqlError UniqueFailed)
      else Ok tt
  | _ => Ok tt
  end.

Definition set_reservation_fields (f : reservation_fields) (r : reservation)
    : reservation :=
  {| r_id := upd_not_null (rf_id f) (r_id r);
     r_court_id := upd_not_null (rf_court_id f) (r_court_id r);
     r_player_id := upd_not_null (rf_player_id f) (r_player_id r);
     r_start_time := upd_not_null (rf_start_time f) (r_start_time r);
     r_end_time := upd_not_null (rf_end_time f) (r_end_time r);
     r_status := upd (rf_status f) (r_status r);
     r_price_cents := upd (rf_price_cents f) (r_price_cents r);
     r_created_at := upd (rf_created_at f) (r_created_at r) |}.

Definition set_waitlist_fields (f : waitlist_fields) (w : waitlist_entry)
    : waitlist_entry :=
  {| w_id := upd_not_null (wf_id f) (w_id w);
     w_court_id := upd_not_null (wf_court_id f) (w_court_id w);
     w_player_id := upd_not_null (wf_player_id f) (w_player_id w);
     w_start_time := upd_not_null (wf_start_time f) (w_start_time w);
     w_end_time := upd_not_null (wf_end_time f) (w_end_time w);
     w_priority := upd (wf_priority f) (w_priority w);
     w_status := upd (wf_status f) (w_status w);
     w_created_at := upd (wf_created_at f) (w_created_at w) |}.

(** [UPDATE reservations SET k1 = ?, ..., kn = ? WHERE id = ?], each key
    of the body being spliced in as it is.  The statement is prepared
    first (no key: syntax error; a key that SQLite resolves to nothing:
    error); the constraints are checked only if a row has the id.  For a
    key in [rf_other] that SQLite does resolve or that changes the
    statement, the UPDATE that really runs is not this one. *)
Definition update_reservations (id : Z) (f : reservation_fields) : M unit :=
  if rf_no_keys f then throw (SqlError SyntaxError)
  else
    match rf_other f with
    | c :: _ => throw (SqlError (NoSuchColumn c))
    | [] =>
        d <- get_db ;;
        if existsb (fun r => r_id r =? id) (reservations d) then
          lift (check_set (rf_id f) (rf_court_id f) (rf_player_id f)
                          (rf_start_time f) (rf_end_time f) (rf_status f)
                          reservation_statuses) ;;;
          lift (check_unique id (rf_id f) (map r_id (reservations d))) ;;;
          put_db (set_reservations d
                    (map (fun r => if r_id r =? id
                                   then set_reservation_fields f r else r)
                         (reservations d))
                    (seq_reservations d))
        else ret tt
    end.

(** [UPDATE waitlist SET k1 = ?, ..., kn = ? WHERE id = ?], with the same
    reading of [wf_other]. *)
Definition update_waitlist (id : Z) (f : waitlist_fields) : M unit :=
  if wf_no_keys f then throw (SqlError SyntaxError)
  else
    match wf_other f with
    | c :: _ => throw (SqlError (NoSuchColumn c))
    | [] =>
        d <- get_db ;;
        if existsb (fun w => w_id w =? id) (waitlist d) then
          lift (check_set (wf_id f) (wf_court_id f) (wf_player_id f)
                          (wf_start_time f) (wf_end_time f) (wf_status f)
                          waitlist_statuses) ;;;
          lift (check_unique id (wf_id f) (map w_id (waitlist d))) ;;;
          put_db (set_waitlist d
                    (map (fun w => if w_id w =? id
                                   then set_waitlist_fields f w else w)
                         (waitlist d))
                    (seq_waitlist d))
        else ret tt
    end.

(** ** The handlers *)

(** [x || dflt] on a text: the empty string, null and undefined are falsy. *)
Definition or_text (v : option string) (dflt : string) : option string :=
  match v with
  | None => Some dflt
  | Some s => if String.eqb s EmptyString then Some dflt else Some s
  end.

(** [x || dflt] on a number: zero, null and undefined are falsy. *)
Definition or_int (v : sqlint) (dflt : Z) : sqlint :=
  match v with
  | None => Some dflt
  | Some z => if z =? 0 then Some dflt else Some z
  end.

(** The body of POST /api/reservations, as the handler destructures it
    (a missing field is bound like a null one). *)
Record reservation_body : Type := {
  b_court_id : sqlint;
  b_player_id : sqlint;
  b_start_time : option timeval;
  b_end_time : option timeval;
  b_price_cents : sqlint;
  b_status : option string
}.

(** The body of POST /api/waitlist. *)
Record waitlist_body : Type := {
  wb_court_id : sqlint;
  wb_player_id : sqlint;
  wb_start_time : option timeval;
  wb_end_time : option timeval;
  wb_priority : sqlint;
  wb_status : option string
}.

(** What the handler of POST /api/reservations can name: its parameters,
    the fields it destructures from the body, its constants, and the
    bindings of the module. *)
Definition post_reservations_scope : list string :=
  ["req"; "res"; "court_id"; "player_id"; "start_time"; "end_time";
   "price_cents"; "status"; "conflicts"; "result"; "row"] ++ module_scope.

Definition conflict_message : string :=
  "Court is already booked at this time. Added to waitlist.".

(** [app.post('/api/reservations', ...)].  The arguments of the INSERT are
    evaluated before it is run; the last of them reads [payment_status]. *)
Definition post_reservations (now : Z) (b : reservation_body)
    : db -> db * response :=
  try_catch
    (d <- get_db ;;
     let conflicts :=
       conflict_query (reservations d) (b_court_id b) (b_start_time b)
                      (b_end_time b) in
     if (0 <? List.length conflicts)%nat then
       insert_waitlist now (b_court_id b) (b_player_id b) (b_start_time b)
                       (b_end_time b) (Some 0) (Some "waiting") ;;;
       ret (respond 409 (BText conflict_message))
     else
       identifier post_reservations_scope "payment_status" ;;;
       lift (check_columns
               ["court_id"; "player_id"; "start_time"; "end_time"; "status";
                "price_cents"; "payment_status"] reservations_columns) ;;;
       lastID <- insert_reservation now (b_court_id b) (b_player_id b)
                   (b_start_time b) (b_end_time b)
                   (or_text (b_status b) "booked")
                   (or_int (b_price_cents b) 0) ;;
       row <- select_reservation lastID ;;
       ret (respond 201 (BReservation row))).

(** [app.patch('/api/reservations/:id', ...)] *)
Definition patch_reservations (id : Z) (f : reservation_fields)
    : db -> db * response :=
  try_catch
    (update_reservations id f ;;;
     updated <- select_reservation id ;;
     ret (respond 200 (BReservation updated))).

(** [app.delete('/api/reservations/:id', ...)] *)
Definition delete_reservations (id : Z) : db -> db * response :=
  try_catch
    (delete_reservation id ;;;
     ret (respond 200 BOk)).

(** [app.post('/api/waitlist', ...)] *)
Definition post_waitlist (now : Z) (b : waitlist_body) : db -> db * response :=
  try_catch
    (lastID <- insert_waitlist now (wb_court_id b) (wb_player_id b)
                 (wb_start_time b) (wb_end_time b)
                 (or_int (wb_priority b) 0)
                 (or_text (wb_status b) "waiting") ;;
     row <- select_waitlist lastID ;;
     ret (respond 201 (BWaitlist row))).

(** [app.patch('/api/waitlist/:id', ...)]: the update, then the recheck of
    the updated entry; destructuring [updated] throws when it is
    [undefined]. *)
Definition patch_waitlist (now : Z) (id : Z) (f : waitlist_fields)
    : db -> db * response :=
  try_catch
    (update_waitlist id f ;;;
     updated <- select_waitlist id ;;
     match updated with
     | None => throw TypeError
     | Some u =>
         d <- get_db ;;
         let conflicts :=
           conflict_query (reservations d) (Some (w_court_id u))
                          (Some (w_start_time u)) (Some (w_end_time u)) in
         if (List.length conflicts =? 0)%nat then
           lastID <- insert_reservation now (Some (w_court_id u))
                       (Some (w_player_id u)) (Some (w_start_time u))
                       (Some (w_end_time u)) (Some "booked") (Some 0) ;;
           delete_waitlist id ;;;
           row <- select_reservation lastID ;;
           ret (respond 201 (BReservation row))
         else ret (respond 200 (BWaitlist (Some u)))
     end).

(** [app.delete('/api/waitlist/:id', ...)] *)
Definition delete_waitlists (id : Z) : db -> db * response :=
  try_catch
    (delete_waitlist id ;;;
     ret (respond 200 BOk)).

(** The requests that write to the two tables. *)
Inductive request : Type :=
| PostReservation (now : Z) (b : reservation_body)
| PatchReservation (id : Z) (f : reservation_fields)
| DeleteReservation (id : Z)
| PostWaitlist (now : Z) (b : waitlist_body)
| PatchWaitlist (now : Z) (id : Z) (f : waitlist_fields)
| DeleteWaitlist (id : Z).

Definition handle (q : request) : db -> db * response :=
  match q with
  | PostReservation now b => post_reservations now b
  | PatchReservation id f => patch_reservations id f
  | DeleteReservation id => delete_reservations id
  | PostWaitlist now b => post_waitlist now b
  | PatchWaitlist now id f => patch_waitlist now id f
  | DeleteWaitlist id => delete_waitlists id
  end.

(** The database after a sequence of requests, served one after the other. *)
Fixpoint serve (qs : list request) (d : db) : db :=
  match qs with
  | [] => d
  | q :: rest => serve rest (fst (handle q d))
  end.

(** ** The vocabulary of the specification *)

(** Half-open intervals [[s1,e1)] and [[s2,e2)] overlap iff [s1 < e2] and
    [s2 < e1]. *)
Definition overlap (s1 e1 s2 e2 : Z) : Prop := s1 < e2 /\ s2 < e1.

(** An active booking: status booked or completed. *)
Definition active (r : reservation) : Prop :=
  r_status r = Some "booked" \/ r_status r = Some "completed".

(** Two time ranges of the tables overlap when all four ends are dates and
    the intervals they denote overlap. *)
Definition times_overlap (s1 e1 s2 e2 : timeval) : Prop :=
  exists a1 b1 a2 b2,
    s1 = TAt a1 /\ e1 = TAt b1 /\ s2 = TAt a2 /\ e2 = TAt b2 /\
    overlap a1 b1 a2 b2.

(** A request for [[s,e)] on court [c] conflicts with the reservation [r]. *)
Definition conflicts_with (c : Z) (s e : timeval) (r : reservation) : Prop :=
  active r /\ r_court_id r = c /\
  times_overlap (r_start_time r) (r_end_time r) s e.

Definition double_booked (a b : reservation) : Prop :=
  active a /\ conflicts_with (r_court_id a) (r_start_time a) (r_end_time a) b.

(** The invariant: no two rows of the table are active on the same court
    with overlapping intervals.  A row whose start or end [datetime()]
    cannot read has no interval: it overlaps nothing, as in the conflict
    query, and the invariant says nothing about it. *)
Definition no_double_booking (d : db) : Prop :=
  ForallOrdPairs (fun a b => ~ double_booked a b) (reservations d).

(** Decision procedures for the same notions. *)
Definition activeb (r : reservation) : bool :=
  match r_status r with
  | Some s => String.eqb s "booked" || String.eqb s "completed"
  | None => false
  end.

Definition times_overlapb (s1 e1 s2 e2 : timeval) : bool :=
  match s1, e1, s2, e2 with
  | TAt a1, TAt b1, TAt a2, TAt b2 => (a1 <? b2) && (a2 <? b1)
  | _, _, _, _ => false
  end.

Definition double_bookedb (a b : reservation) : bool :=
  activeb a && activeb b && (r_court_id b =? r_court_id a)
  && times_overlapb (r_start_time b) (r_end_time b)
                    (r_start_time a) (r_end_time a).

Fixpoint no_double_bookingb (rs : list reservation) : bool :=
  match rs with
  | [] => true
  | r :: rest =>
      forallb (fun x => negb (double_bookedb r x)) rest
      && no_double_bookingb rest
  end.

(** A court that exists and is active; a player that exists. *)
Definition court_activeb (d : db) (c : Z) : bool :=
  existsb (fun ct => (c_id ct =? c)
                     && match c_is_active ct with
                        | Some z => negb (z =? 0)
                        | None => false
                        end)
          (courts d).

Definition player_existsb (d : db) (p : Z) : bool :=
  existsb (fun pl => p_id pl =? p) (players d).

(** A PATCH body of a reservation whose keys are columns of the table
    other than its court, interval and status. *)
Definition keeps_slot (q : request) : Prop :=
  match q with
  | PatchReservation _ f =>
      rf_court_id f = None /\ rf_start_time f = None /\
      rf_end_time f = None /\ rf_status f = None /\ rf_other f = []
  | _ => True
  end.

(** The reservation that the recheck of the entry [u] inserts, and the
    database it leaves. *)
Definition promoted_reservation (now : Z) (d : db) (u : waitlist_entry)
    : reservation :=
  {| r_id := next_id (seq_reservations d) (map r_id (reservations d));
     r_court_id := w_court_id u; r_player_id := w_player_id u;
     r_start_time := w_start_time u; r_end_time := w_end_time u;
     r_status := Some "booked"; r_price_cents := Some 0;
     r_created_at := Some (TAt now) |}.

Definition promoted_db (now id : Z) (d : db) (u : waitlist_entry) : db :=
  {| courts := courts d; players := players d;
     reservations := reservations d ++ [promoted_reservation now d u];
     waitlist := filter (fun w => negb (w_id w =? id)) (waitlist d);
     seq_reservations := r_id (promoted_reservation now d u);
     seq_waitlist := seq_waitlist d |}.

(** A PATCH body that only sets the status. *)
Definition status_only (s : string) : reservation_fields :=
  {| rf_id := None; rf_court_id := None; rf_player_id := None;
     rf_start_time := None; rf_end_time := None; rf_status := Some (Some s);
     rf_price_cents := None; rf_created_at := None; rf_other := [] |}.

Definition with_status (s : string) (r : reservation) : reservation :=
  {| r_id := r_id r; r_court_id := r_court_id r;
     r_player_id := r_player_id r; r_start_time := r_start_time r;
     r_end_time := r_end_time r; r_status := Some s;
     r_price_cents := r_price_cents r; r_created_at := r_created_at r |}.

(** Sample data: court 1, players 1 and 2, times in minutes of the day. *)
Definition sample_db (rs : list reservation) (ws : list waitlist_entry) : db :=
  {| courts := [{| c_id := 1; c_is_active := Some 1 |}];
     players := [{| p_id := 1 |}; {| p_id := 2 |}];
     reservations := rs; waitlist := ws;
     seq_reservations := max_id (map r_id rs);
     seq_waitlist := max_id (map w_id ws) |}.

Definition booking (id player s e : Z) (status : string) : reservation :=
  {| r_id := id; r_court_id := 1; r_player_id := player;
     r_start_time := TAt s; r_end_time := TAt e; r_status := Some status;
     r_price_cents := Some 100000; r_created_at := Some (TAt 0) |}.

Definition entry (id player s e : Z) (status : string) : waitlist_entry :=
  {| w_id := id; w_court_id := 1; w_player_id := player;
     w_start_time := TAt s; w_end_time := TAt e; w_priority := Some 0;
     w_status := Some status; w_created_at := Some (TAt 0) |}.

Definition ask (court player : Z) (s e : Z) : reservation_body :=
  {| b_court_id := Some court; b_player_id := Some player;
     b_start_time := Some (TAt s); b_end_time := Some (TAt e);
     b_price_cents := Some 100000; b_status := None |}.

Definition priority_only (p : Z) : waitlist_fields :=
  {| wf_id := None; wf_court_id := None; wf_player_id := None;
     wf_start_time := None; wf_end_time := None; wf_priority := Some (Some p);
     wf_status := None; wf_created_at := None; wf_other := [] |}.

Definition move_to (s e : Z) : reservation_fields :=
  {| rf_id := None; rf_court_id := None; rf_player_id := None;
     rf_start_time := Some (Some (TAt s)); rf_end_time := Some (Some (TAt e));
     rf_status := None; rf_price_cents := None; rf_created_at := None;
     rf_other := [] |}.

(** Sample databases. *)
Definition free_court : db := sample_db [] [].

Definition one_booking : db := sample_db [booking 1 1 540 600 "booked"] [].

Definition half_past_booking : db :=
  sample_db [booking 1 1 630 690 "booked"] [].

Definition back_to_back : db :=
  sample_db [booking 1 1 540 600 "booked"; booking 2 2 600 660 "booked"] [].

Definition cancelled_booking : db :=
  sample_db [booking 1 1 540 600 "cancelled"] [].

Definition booked_and_waiting : db :=
  sample_db [booking 1 1 540 600 "booked"] [entry 1 2 540 600 "waiting"].

Definition one_waiting : db := sample_db [] [entry 1 2 540 600 "waiting"].

Definition one_cancelled_entry : db :=
  sample_db [] [entry 1 2 540 600 "cancelled"].

Definition entry_with_priority (p : Z) (w : waitlist_entry) : waitlist_entry :=
  {| w_id := w_id w; w_court_id := w_court_id w;
     w_player_id := w_player_id w; w_start_time := w_start_time w;
     w_end_time := w_end_time w; w_priority := Some p;
     w_status := w_status w; w_created_at := w_created_at w |}.

Definition waiting_entry (id : Z) (now : Z) (c p : Z) (s e : timeval)
    : waitlist_entry :=
  {| w_id := id; w_court_id := c; w_player_id := p; w_start_time := s;
     w_end_time := e; w_priority := Some 0; w_status := Some "waiting";
     w_created_at := Some (TAt now) |}.

(** ** Courts, players and the seeded database *)

(** [app.delete('/api/courts/:id', ...)]: [DELETE FROM courts WHERE id = ?];
    nothing else is deleted. *)
Definition delete_courts (id : Z) : db -> db * response :=
  try_catch
    (d <- get_db ;;
     put_db {| courts := filter (fun c => negb (c_id c =? id)) (courts d);
               players := players d; reservations := reservations d;
               waitlist := waitlist d;
               seq_reservations := seq_reservations d;
               seq_waitlist := seq_waitlist d |} ;;;
     ret (respond 200 BOk)).

(** [app.delete('/api/players/:id', ...)]: [DELETE FROM players WHERE id = ?]. *)
Definition delete_players (id : Z) : db -> db * response :=
  try_catch
    (d <- get_db ;;
     put_db {| courts := courts d;
               players := filter (fun p => negb (p_id p =? id)) (players d);
               reservations := reservations d; waitlist := waitlist d;
               seq_reservations := seq_reservations d;
               seq_waitlist := seq_waitlist d |} ;;;
     ret (respond 200 BOk)).

(** The four tables after [init()] of init_db.js: three active courts, five
    players, a booked hour on court 1 and a completed hour on court 2 of
    the day [isoNow], an empty waitlist.  [day] is the instant of midnight
    of [isoNow] in minutes; [now1] and [now2] are the instants of the two
    INSERTs into reservations. *)
Definition init (day now1 now2 : Z) : db :=
  {| courts := [{| c_id := 1; c_is_active := Some 1 |};
                {| c_id := 2; c_is_active := Some 1 |};
                {| c_id := 3; c_is_active := Some 1 |}];
     players := [{| p_id := 1 |}; {| p_id := 2 |}; {| p_id := 3 |};
                 {| p_id := 4 |}; {| p_id := 5 |}];
     reservations :=
       [{| r_id := 1; r_court_id := 1; r_player_id := 1;
           r_start_time := TAt (day + 540); r_end_time := TAt (day + 600);
           r_status := Some "booked"; r_price_cents := Some 100000;
           r_created_at := Some (TAt now1) |};
        {| r_id := 2; r_court_id := 2; r_player_id := 2;
           r_start_time := TAt (day + 660); r_end_time := TAt (day + 720);
           r_status := Some "completed"; r_price_cents := Some 100000;
           r_created_at := Some (TAt now2) |}];
     waitlist := [];
     seq_reservations := 2;
     seq_waitlist := 0 |}.

(** ** Constraints of the schema as invariants *)

(** A status that passes the CHECK of its table: NULL or one of the
    listed texts. *)
Definition status_allowed (allowed : list string) (s : option string) : Prop :=
  s = None \/ exists x, s = Some x /\ In x allowed.

Definition statuses_valid (d : db) : Prop :=
  Forall (fun r => status_allowed reservation_statuses (r_status r))
         (reservations d)
  /\ Forall (fun w => status_allowed waitlist_statuses (w_status w))
            (waitlist d).

(** The primary keys: no two rows of a table have the same id. *)
Definition ids_unique (d : db) : Prop :=
  NoDup (map r_id (reservations d)) /\ NoDup (map w_id (waitlist d)).

(** The row that POST /api/waitlist inserts for a body whose required
    fields are there. *)
Definition posted_entry (now : Z) (d : db) (b : waitlist_body) (c p : Z)
    (s e : timeval) : waitlist_entry :=
  {| w_id := next_id (seq_waitlist d) (map w_id (waitlist d));
     w_court_id := c; w_player_id := p; w_start_time := s;
     w_end_time := e; w_priority := or_int (wb_priority b) 0;
     w_status := or_text (wb_status b) "waiting";
     w_created_at := Some (TAt now) |}.

(** More sample data. *)
Definition unreadable_entry (id player : Z) (e : Z) : waitlist_entry :=
  {| w_id := id; w_court_id := 1; w_player_id := player;
     w_start_time := TBad; w_end_time := TAt e; w_priority := Some 0;
     w_status := Some "waiting"; w_created_at := Some (TAt 0) |}.

Definition booked_and_unreadable : db :=
  sample_db [booking 1 1 540 600 "booked"] [unreadable_entry 1 2 600].

Definition no_player_ask (s e : Z) : reservation_body :=
  {| b_court_id := Some 1; b_player_id := None;
     b_start_time := Some (TAt s); b_end_time := Some (TAt e);
     b_price_cents := None; b_status := None |}.

Definition join_waitlist (court player s e : Z) : waitlist_body :=
  {| wb_court_id := Some court; wb_player_id := Some player;
     wb_start_time := Some (TAt s); wb_end_time := Some (TAt e);
     wb_priority := None; wb_status := None |}.

Definition no_fields : reservation_fields :=
  {| rf_id := None; rf_court_id := None; rf_player_id := None;
     rf_start_time := None; rf_end_time := None; rf_status := None;
     rf_price_cents := None; rf_created_at := None; rf_other := [] |}.

Definition no_waitlist_fields : waitlist_fields :=
  {| wf_id := None; wf_court_id := None; wf_player_id := None;
     wf_start_time := None; wf_end_time := None; wf_priority := None;
     wf_status := None; wf_created_at := None; wf_other := [] |}.

(** ** Two waitlist updates in flight

    The handler of PATCH /api/waitlist/:id awaits each statement, and no
    transaction is opened: between its conflict query and its INSERT the
    statements of another request can run.  The handler in two parts:
    up to the conflict query, and from the test of its result on. *)
Definition patch_waitlist_check (id : Z) (f : waitlist_fields)
    : M (waitlist_entry * list Z) :=
  update_waitlist id f ;;;
  updated <- select_waitlist id ;;
  match updated with
  | None => throw TypeError
  | Some u =>
      d <- get_db ;;
      ret (u, conflict_query (reservations d) (Some (w_court_id u))
                (Some (w_start_time u)) (Some (w_end_time u)))
  end.

Definition patch_waitlist_finish (now id : Z) (x : waitlist_entry * list Z)
    : M response :=
  if (List.length (snd x) =? 0)%nat then
    lastID <- insert_reservation now (Some (w_court_id (fst x)))
                (Some (w_player_id (fst x))) (Some (w_start_time (fst x)))
                (Some (w_end_time (fst x))) (Some "booked") (Some 0) ;;
    delete_waitlist id ;;;
    row <- select_reservation lastID ;;
    ret (respond 201 (BReservation row))
  else ret (respond 200 (BWaitlist (Some (fst x)))).

(** Two such handlers, A and B, scheduled so that both have run their
    conflict query before either inserts; each has its own try and catch. *)
Definition interleaved_waitlist_updates (nowA idA : Z) (fA : waitlist_fields)
    (nowB idB : Z) (fB : waitlist_fields) (d : db)
    : db * (response * response) :=
  let (d1, xa) := patch_waitlist_check idA fA d in
  let (d2, xb) := patch_waitlist_check idB fB d1 in
  let (d3, ra) :=
    try_catch (x <- lift xa ;; patch_waitlist_finish nowA idA x) d2 in
  let (d4, rb) :=
    try_catch (x <- lift xb ;; patch_waitlist_finish nowB idB x) d3 in
  (d4, (ra, rb)).

(** Sample data for the invariant. *)
Definition booked_and_next_waiting : db :=
  sample_db [booking 1 1 540 600 "booked"] [entry 1 2 600 660 "waiting"].

Definition two_waiting : db :=
  sample_db [] [entry 1 2 540 600 "waiting"; entry 2 1 540 600 "waiting"].

Definition two_unreadable : db :=
  sample_db [] [unreadable_entry 1 2 600; unreadable_entry 2 1 600].

Definition price_only (p : Z) : reservation_fields :=
  {| rf_id := None; rf_court_id := None; rf_player_id := None;
     rf_start_time := None; rf_end_time := None; rf_status := None;
     rf_price_cents := Some (Some p); rf_created_at := None;
     rf_other := [] |}.

(** * Proofs *)

Ltac run_handler :=
  unfold try_catch, bind, ret, throw, lift, get_db, put_db; simpl.

(** ** The conflict query against the overlap predicate *)

Lemma activeb_spec r : activeb r = true <-> active r.
Proof.
  unfold activeb, active.
  destruct (r_status r) as [s|]; split; intros H.
  - apply orb_true_iff in H as [H|H]; apply String.eqb_eq in H; subst; auto.
  - apply orb_true_iff.
    destruct H as [H|H]; injection H as ->; [left|right]; apply String.eqb_refl.
  - discriminate.
  - destruct H; discriminate.
Qed.

Lemma times_overlapb_spec s1 e1 s2 e2 :
  times_overlapb s1 e1 s2 e2 = true <-> times_overlap s1 e1 s2 e2.
Proof.
  unfold times_overlapb, times_overlap, overlap; split.
  - destruct s1, e1, s2, e2; try discriminate.
    intros H; apply andb_true_iff in H as [H1 H2].
    apply Z.ltb_lt in H1, H2. do 4 eexists; repeat split; eauto.
  - intros (a1 & b1 & a2 & b2 & -> & -> & -> & -> & H1 & H2).
    apply andb_true_iff; split; apply Z.ltb_lt; assumption.
Qed.

Lemma sql_in_active r :
  sql_true (sql_in (r_status r) ["booked"; "completed"]) = activeb r.
Proof.
  unfold activeb, sql_in; destruct (r_status r) as [s|]; simpl; auto.
  rewrite orb_false_r.
  destruct (String.eqb s "booked" || String.eqb s "completed"); reflexivity.
Qed.

(** The WHERE clause of the conflict query, on parameters that are not
    NULL, as a boolean. *)
Lemma conflict_where_bool c s e r :
  sql_true (conflict_where (Some c) (Some s) (Some e) r)
  = (r_court_id r =? c) && activeb r
    && times_overlapb (r_start_time r) (r_end_time r) s e.
Proof.
  unfold conflict_where, activeb, times_overlapb, sql_in, sql_eq, sql_le,
    sql_ge, datetime.
  destruct (r_status r) as [st|];
    destruct (r_start_time r) as [|s1], (r_end_time r) as [|e1],
      s as [|s2], e as [|e2]; simpl;
    rewrite ?Z.geb_leb, ?Z.leb_antisym, ?orb_false_r;
    repeat match goal with
           | |- context [Z.eqb ?a ?b] => destruct (Z.eqb a b)
           | |- context [Z.ltb ?a ?b] => destruct (Z.ltb a b)
           | |- context [String.eqb ?a ?b] => destruct (String.eqb a b)
           end; reflexivity.
Qed.

(** It selects exactly the active reservations of the court whose interval
    overlaps the requested one. *)
Lemma conflict_where_spec c s e r :
  sql_true (conflict_where (Some c) (Some s) (Some e) r) = true
  <-> conflicts_with c s e r.
Proof.
  unfold conflicts_with.
  rewrite conflict_where_bool, !andb_true_iff, activeb_spec,
    times_overlapb_spec, Z.eqb_eq.
  tauto.
Qed.

(** A NULL or unreadable parameter selects nothing. *)
Lemma conflict_where_false c s e r :
  (c = None \/ datetime s = None \/ datetime e = None) ->
  sql_true (conflict_where c s e r) = false.
Proof.
  unfold conflict_where, sql_eq, sql_in, sql_le, sql_ge.
  destruct c, (r_status r) as [st|], (datetime s), (datetime e),
    (datetime (Some (r_end_time r))), (datetime (Some (r_start_time r)));
    simpl; intros [Hn | [Hn | Hn]]; try discriminate Hn;
    repeat match goal with
           | |- context [Z.eqb ?a ?b] => destruct (Z.eqb a b)
           | |- context [Z.leb ?a ?b] => destruct (Z.leb a b)
           | |- context [Z.geb ?a ?b] => destruct (Z.geb a b)
           | |- context [String.eqb ?a ?b] => destruct (String.eqb a b)
           end; reflexivity.
Qed.

Lemma conflict_query_nil rs c s e :
  conflict_query rs (Some c) (Some s) (Some e) = []
  <-> forall r, In r rs -> ~ conflicts_with c s e r.
Proof.
  unfold conflict_query; induction rs as [|x rs IH]; simpl.
  - split; auto.
  - destruct (sql_true (conflict_where (Some c) (Some s) (Some e) x)) eqn:E;
      simpl.
    + split; [discriminate|].
      intros H; exfalso; apply (H x); [now left|].
      apply conflict_where_spec; assumption.
    + rewrite IH; split.
      * intros H r [<-|Hr]; auto.
        rewrite <- conflict_where_spec, E; discriminate.
      * intros H r Hr; apply H; now right.
Qed.

Lemma conflict_query_found rs c s e r :
  In r rs -> conflicts_with c s e r ->
  conflict_query rs (Some c) (Some s) (Some e) <> [].
Proof.
  intros Hin Hc Hnil.
  apply (proj1 (conflict_query_nil rs c s e) Hnil r Hin Hc).
Qed.

Lemma double_bookedb_spec a b :
  double_bookedb a b = true <-> double_booked a b.
Proof.
  unfold double_bookedb, double_booked, conflicts_with.
  rewrite !andb_true_iff, !activeb_spec, times_overlapb_spec, Z.eqb_eq.
  tauto.
Qed.

Lemma no_double_bookingb_spec d :
  no_double_bookingb (reservations d) = true <-> no_double_booking d.
Proof.
  unfold no_double_booking.
  induction (reservations d) as [|r rs IH]; simpl.
  - split; auto. intros _; constructor.
  - rewrite andb_true_iff, IH, forallb_forall; split.
    + intros [H1 H2]; constructor; auto.
      apply Forall_forall; intros x Hx Hdb.
      specialize (H1 x Hx). apply double_bookedb_spec in Hdb.
      rewrite Hdb in H1; discriminate.
    + intros H; inversion H as [|? ? Hf Hr]; subst; split; auto.
      intros x Hx. rewrite Forall_forall in Hf. specialize (Hf x Hx).
      destruct (double_bookedb r x) eqn:E; auto.
      apply double_bookedb_spec in E; contradiction.
Qed.

(** ** What each handler does to the tables *)

Lemma max_id_upper ids x : In x ids -> x <= max_id ids.
Proof.
  induction ids as [|y ids IH]; simpl; [tauto|].
  intros [->|H]; [|specialize (IH H)]; lia.
Qed.

Lemma next_id_fresh seq ids x : In x ids -> x <> next_id seq ids.
Proof.
  intros H; apply max_id_upper in H; unfold next_id; lia.
Qed.

(** Without a conflict the handler of POST /api/reservations reaches the
    read of [payment_status], which nothing binds. *)
Lemma post_reservations_no_conflict now b d :
  conflict_query (reservations d) (b_court_id b) (b_start_time b)
                 (b_end_time b) = [] ->
  post_reservations now b d
  = (d, respond 500 (BError (ReferenceError "payment_status"))).
Proof.
  intros H; unfold post_reservations; run_handler.
  rewrite H; reflexivity.
Qed.

(** With a conflict it inserts the request into the waitlist. *)
Lemma post_reservations_conflict now b d c p s e :
  conflict_query (reservations d) (b_court_id b) (b_start_time b)
                 (b_end_time b) <> [] ->
  b_court_id b = Some c -> b_player_id b = Some p ->
  b_start_time b = Some s -> b_end_time b = Some e ->
  post_reservations now b d
  = (set_waitlist d
       (waitlist d ++
          [{| w_id := next_id (seq_waitlist d) (map w_id (waitlist d));
              w_court_id := c; w_player_id := p; w_start_time := s;
              w_end_time := e; w_priority := Some 0;
              w_status := Some "waiting";
              w_created_at := Some (TAt now) |}])
       (next_id (seq_waitlist d) (map w_id (waitlist d))),
     respond 409 (BText conflict_message)).
Proof.
  intros H Hc Hp Hs He; unfold post_reservations; run_handler.
  destruct (conflict_query _ _ _ _) as [|x l]; [contradiction|]; simpl.
  unfold insert_waitlist; rewrite Hc, Hp, Hs, He; reflexivity.
Qed.

Lemma insert_waitlist_frame now c p s e pr st d :
  reservations (fst (insert_waitlist now c p s e pr st d)) = reservations d.
Proof.
  unfold insert_waitlist; run_handler.
  destruct c, p, s, e; simpl; auto.
  destruct (check_status st waitlist_statuses); reflexivity.
Qed.

Lemma post_reservations_frame now b d :
  reservations (fst (post_reservations now b d)) = reservations d.
Proof.
  destruct (conflict_query (reservations d) (b_court_id b) (b_start_time b)
                           (b_end_time b)) as [|x l] eqn:E.
  - rewrite post_reservations_no_conflict; auto.
  - unfold post_reservations; run_handler. rewrite E; simpl.
    pose proof (insert_waitlist_frame now (b_court_id b) (b_player_id b)
                  (b_start_time b) (b_end_time b) (Some 0) (Some "waiting") d)
      as F.
    destruct (insert_waitlist _ _ _ _ _ _ _ d) as [d' [a|err]]; exact F.
Qed.

Lemma post_waitlist_frame now b d :
  reservations (fst (post_waitlist now b d)) = reservations d.
Proof.
  unfold post_waitlist, select_waitlist; run_handler.
  pose proof (insert_waitlist_frame now (wb_court_id b) (wb_player_id b)
                (wb_start_time b) (wb_end_time b) (or_int (wb_priority b) 0)
                (or_text (wb_status b) "waiting") d) as F.
  destruct (insert_waitlist _ _ _ _ _ _ _ d) as [d' [a|err]]; exact F.
Qed.

Lemma delete_waitlists_frame id d :
  reservations (fst (delete_waitlists id d)) = reservations d.
Proof. reflexivity. Qed.

Lemma delete_reservations_spec id d :
  delete_reservations id d
  = (set_reservations d
       (filter (fun r => negb (r_id r =? id)) (reservations d))
       (seq_reservations d), respond 200 BOk).
Proof. reflexivity. Qed.

(** An UPDATE either throws and writes nothing, or rewrites the rows that
    have the id. *)
Lemma update_reservations_cases id f d :
  (exists e, update_reservations id f d = (d, Threw e))
  \/ update_reservations id f d = (d, Ok tt)
  \/ update_reservations id f d
     = (set_reservations d
          (map (fun r => if r_id r =? id then set_reservation_fields f r else r)
               (reservations d))
          (seq_reservations d), Ok tt).
Proof.
  unfold update_reservations.
  destruct (rf_no_keys f); [left; eexists; reflexivity|].
  destruct (rf_other f); [|left; eexists; reflexivity].
  run_handler.
  destruct (existsb _ (reservations d)); [|right; left; reflexivity].
  destruct (check_set _ _ _ _ _ _ _) as [[]|e]; [|left; eexists; reflexivity].
  destruct (check_unique _ _ _) as [[]|e]; [|left; eexists; reflexivity].
  right; right; reflexivity.
Qed.

Lemma patch_reservations_cases id f d :
  fst (patch_reservations id f d) = d
  \/ fst (patch_reservations id f d)
     = set_reservations d
         (map (fun r => if r_id r =? id then set_reservation_fields f r else r)
              (reservations d))
         (seq_reservations d).
Proof.
  unfold patch_reservations, select_reservation; run_handler.
  destruct (update_reservations_cases id f d) as [[e H]|[H|H]];
    rewrite H; simpl; auto.
Qed.

Lemma update_waitlist_cases id f d :
  (exists e, update_waitlist id f d = (d, Threw e))
  \/ update_waitlist id f d = (d, Ok tt)
  \/ update_waitlist id f d
     = (set_waitlist d
          (map (fun w => if w_id w =? id then set_waitlist_fields f w else w)
               (waitlist d))
          (seq_waitlist d), Ok tt).
Proof.
  unfold update_waitlist.
  destruct (wf_no_keys f); [left; eexists; reflexivity|].
  destruct (wf_other f); [|left; eexists; reflexivity].
  run_handler.
  destruct (existsb _ (waitlist d)); [|right; left; reflexivity].
  destruct (check_set _ _ _ _ _ _ _) as [[]|e]; [|left; eexists; reflexivity].
  destruct (check_unique _ _ _) as [[]|e]; [|left; eexists; reflexivity].
  right; right; reflexivity.
Qed.

(** An UPDATE of the waitlist leaves the other tables and counters alone. *)
Lemma update_waitlist_frame id f d d1 r :
  update_waitlist id f d = (d1, r) ->
  courts d1 = courts d /\ players d1 = players d /\
  reservations d1 = reservations d /\
  seq_reservations d1 = seq_reservations d /\
  seq_waitlist d1 = seq_waitlist d.
Proof.
  destruct (update_waitlist_cases id f d) as [[e H]|[H|H]];
    rewrite H; intros E; injection E as <- _; simpl; auto.
Qed.

Lemma find_app_last {A} (p : A -> bool) l x :
  (forall y, In y l -> p y = false) -> p x = true ->
  find p (l ++ [x]) = Some x.
Proof.
  intros Hl Hx; induction l as [|y l IH]; simpl.
  - rewrite Hx; reflexivity.
  - rewrite (Hl y (or_introl eq_refl)). apply IH.
    intros z Hz; apply Hl; now right.
Qed.

Lemma select_waitlist_eq id d :
  select_waitlist id d
  = (d, Ok (find (fun w => (w_id w =? id)
                           && joins d (w_court_id w) (w_player_id w))
                 (waitlist d))).
Proof. reflexivity. Qed.

(** The four ways the handler of PATCH /api/waitlist/:id ends: the UPDATE
    throws; no row comes back; the entry still conflicts; the entry is
    turned into a reservation and deleted. *)
Lemma patch_waitlist_cases now id f d :
  (exists e, update_waitlist id f d = (d, Threw e) /\
             patch_waitlist now id f d = (d, respond 500 (BError e)))
  \/ exists d1, update_waitlist id f d = (d1, Ok tt) /\
     ((select_waitlist id d1 = (d1, Ok None) /\
       patch_waitlist now id f d = (d1, respond 500 (BError TypeError)))
      \/ exists u, select_waitlist id d1 = (d1, Ok (Some u)) /\
         ((conflict_query (reservations d1) (Some (w_court_id u))
             (Some (w_start_time u)) (Some (w_end_time u)) <> [] /\
           patch_waitlist now id f d = (d1, respond 200 (BWaitlist (Some u))))
          \/ (conflict_query (reservations d1) (Some (w_court_id u))
                (Some (w_start_time u)) (Some (w_end_time u)) = [] /\
              patch_waitlist now id f d
              = (promoted_db now id d1 u,
                 respond 201
                   (BReservation (Some (promoted_reservation now d1 u))))))).
Proof.
  assert (U : (exists e, update_waitlist id f d = (d, Threw e))
              \/ exists d1, update_waitlist id f d = (d1, Ok tt)).
  { destruct (update_waitlist_cases id f d) as [H|[H|H]]; eauto. }
  destruct U as [[e H]|[d1 H]]; [left|right].
  - exists e; split; auto.
    unfold patch_waitlist; run_handler; rewrite H; reflexivity.
  - exists d1; split; auto.
    rewrite select_waitlist_eq.
    unfold patch_waitlist; run_handler; rewrite H.
    destruct (find _ (waitlist d1)) as [u|] eqn:F; [right|left].
    + exists u; split; [reflexivity|].
      destruct (conflict_query _ _ _ _) as [|x l] eqn:C; [right|left]; simpl.
      * split; auto.
        unfold insert_reservation, delete_waitlist, select_reservation;
          run_handler.
        apply find_some in F as [_ F]. apply andb_true_iff in F as [_ J].
        rewrite find_app_last.
        -- reflexivity.
        -- intros y Hy. apply andb_false_iff; left. apply Z.eqb_neq.
           apply next_id_fresh, in_map, Hy.
        -- simpl. rewrite Z.eqb_refl. exact J.
      * split; [discriminate|reflexivity].
    + split; reflexivity.
Qed.

(** ** The invariant under the handlers *)

Lemma ForallOrdPairs_app_last {A} (R : A -> A -> Prop) l x :
  ForallOrdPairs R l -> Forall (fun a => R a x) l ->
  ForallOrdPairs R (l ++ [x]).
Proof.
  induction 1 as [|a l Ha Hl IH]; simpl; intros Hx.
  - repeat constructor.
  - inversion Hx; subst. constructor; auto.
    apply Forall_app; split; auto.
Qed.

Lemma ForallOrdPairs_filter {A} (R : A -> A -> Prop) p l :
  ForallOrdPairs R l -> ForallOrdPairs R (filter p l).
Proof.
  induction 1 as [|a l Ha Hl IH]; simpl; [constructor|].
  destruct (p a); auto. constructor; auto.
  rewrite Forall_forall in *; intros x Hx; apply Ha.
  apply filter_In in Hx; tauto.
Qed.

Lemma ForallOrdPairs_map {A} (R : A -> A -> Prop) g l :
  (forall a b, R a b -> R (g a) (g b)) ->
  ForallOrdPairs R l -> ForallOrdPairs R (map g l).
Proof.
  intros Hg; induction 1 as [|a l Ha Hl IH]; simpl; constructor; auto.
  rewrite Forall_forall in *; intros x Hx.
  apply in_map_iff in Hx as (y & <- & Hy); auto.
Qed.

Lemma times_overlap_sym s1 e1 s2 e2 :
  times_overlap s1 e1 s2 e2 -> times_overlap s2 e2 s1 e1.
Proof.
  intros (a1 & b1 & a2 & b2 & -> & -> & -> & -> & H1 & H2).
  exists a2, b2, a1, b1; unfold overlap; auto 10.
Qed.

(** [double_booked] looks at the court, the interval and the status only. *)
Lemma double_booked_slot a b a' b' :
  r_court_id a' = r_court_id a -> r_start_time a' = r_start_time a ->
  r_end_time a' = r_end_time a -> r_status a' = r_status a ->
  r_court_id b' = r_court_id b -> r_start_time b' = r_start_time b ->
  r_end_time b' = r_end_time b -> r_status b' = r_status b ->
  double_booked a' b' -> double_booked a b.
Proof.
  unfold double_booked, conflicts_with, active.
  intros -> -> -> -> -> -> -> ->; auto.
Qed.

Lemma set_reservation_fields_keeps_slot id f a b :
  keeps_slot (PatchReservation id f) ->
  let g := fun r => if r_id r =? id then set_reservation_fields f r else r in
  ~ double_booked a b -> ~ double_booked (g a) (g b).
Proof.
  simpl; intros (Hc & Hs & He & Hst & _) Hn Hdb; apply Hn.
  revert Hdb; apply double_booked_slot;
    match goal with
    | |- context [if ?c then _ else _] => destruct c
    end; simpl; try rewrite Hc; try rewrite Hs; try rewrite He;
    try rewrite Hst; reflexivity.
Qed.

(** A reservation inserted after an empty conflict query double-books
    nothing. *)
Lemma promoted_not_double_booked now d u :
  conflict_query (reservations d) (Some (w_court_id u))
    (Some (w_start_time u)) (Some (w_end_time u)) = [] ->
  Forall (fun a => ~ double_booked a (promoted_reservation now d u))
         (reservations d).
Proof.
  intros C; apply Forall_forall; intros a Ha Hdb.
  apply (proj1 (conflict_query_nil _ _ _ _) C a Ha).
  destruct Hdb as (Hact & _ & Hc & Ho); simpl in Hc, Ho.
  repeat split; auto. apply times_overlap_sym; assumption.
Qed.

Lemma handle_preserves_no_double_booking q d :
  keeps_slot q -> no_double_booking d -> no_double_booking (fst (handle q d)).
Proof.
  unfold no_double_booking; destruct q as [now b|id f| id|now b|now id f|id];
    simpl handle; intros K H.
  - rewrite post_reservations_frame; assumption.
  - destruct (patch_reservations_cases id f d) as [E|E]; rewrite E; auto.
    simpl. apply ForallOrdPairs_map; auto.
    intros a b; apply (set_reservation_fields_keeps_slot id f a b K).
  - rewrite delete_reservations_spec; simpl.
    apply ForallOrdPairs_filter; assumption.
  - rewrite post_waitlist_frame; assumption.
  - destruct (patch_waitlist_cases now id f d)
      as [(e & _ & E)|(d1 & U & [(_ & E)|(u & _ & [(_ & E)|(C & E)])])];
      rewrite E; simpl; auto;
      apply update_waitlist_frame in U as (_ & _ & R & _);
      try (rewrite R; assumption).
    apply ForallOrdPairs_app_last; [rewrite R; assumption|].
    apply promoted_not_double_booked; assumption.
  - rewrite delete_waitlists_frame; assumption.
Qed.

(** ** Repeating a waitlist update *)

Lemma upd_idem {A} (u : option A) x : upd u (upd u x) = upd u x.
Proof. destruct u; reflexivity. Qed.

Lemma upd_not_null_idem {A} (u : option (option A)) x :
  upd_not_null u (upd_not_null u x) = upd_not_null u x.
Proof. destruct u as [[v|]|]; reflexivity. Qed.

Lemma set_waitlist_fields_idem f w :
  set_waitlist_fields f (set_waitlist_fields f w) = set_waitlist_fields f w.
Proof.
  unfold set_waitlist_fields; simpl.
  rewrite !upd_idem, !upd_not_null_idem; reflexivity.
Qed.

(** The same UPDATE run again changes nothing more. *)
Lemma update_waitlist_idem id f d d1 :
  update_waitlist id f d = (d1, Ok tt) ->
  update_waitlist id f d1 = (d1, Ok tt).
Proof.
  unfold update_waitlist.
  destruct (wf_no_keys f); [discriminate|].
  destruct (wf_other f); [|discriminate].
  run_handler.
  destruct (existsb _ (waitlist d)) eqn:Ex.
  2: { intros E; injection E as <-. rewrite Ex. reflexivity. }
  destruct (check_set _ _ _ _ _ _ _) as [[]|e] eqn:Cs; [|discriminate].
  destruct (check_unique _ _ _) as [[]|e] eqn:Cu; [|discriminate].
  intros E; injection E as <-. simpl.
  set (g := fun w => if w_id w =? id then set_waitlist_fields f w else w).
  destruct (existsb _ (map g (waitlist d))) eqn:Ex2; [|reflexivity].
  assert (K : forall w, w_id w = id -> w_id (set_waitlist_fields f w) = id).
  { intros w Hw; simpl. destruct (wf_id f) as [[v|]|] eqn:Fid; simpl; auto.
    destruct (Z.eqb_spec v id) as [|Hv]; auto. exfalso.
    apply existsb_exists in Ex2 as (x & Hx & Hid).
    apply in_map_iff in Hx as (y & <- & _). apply Z.eqb_eq in Hid.
    unfold g in Hid. destruct (Z.eqb_spec (w_id y) id) as [Hy|Hy].
    - simpl in Hid. rewrite Fid in Hid. simpl in Hid. contradiction.
    - contradiction. }
  assert (G : forall w, g (g w) = g w).
  { intros w; unfold g. destruct (Z.eqb_spec (w_id w) id) as [Hw|Hw].
    - rewrite (K w Hw), Z.eqb_refl. apply set_waitlist_fields_idem.
    - apply Z.eqb_neq in Hw; rewrite Hw; reflexivity. }
  assert (U : check_unique id (wf_id f) (map w_id (map g (waitlist d)))
              = Ok tt).
  { unfold check_unique. destruct (wf_id f) as [[v|]|] eqn:Fid; auto.
    apply existsb_exists in Ex as (w & _ & Hw). apply Z.eqb_eq in Hw.
    specialize (K w Hw). simpl in K. rewrite Fid in K. simpl in K.
    subst v. rewrite Z.eqb_refl. reflexivity. }
  rewrite U; simpl. unfold set_waitlist; simpl.
  rewrite map_map, (map_ext _ _ G). reflexivity.
Qed.

Lemma filter_none_has_id id ws :
  existsb (fun w => w_id w =? id)
          (filter (fun w => negb (w_id w =? id)) ws) = false.
Proof.
  induction ws as [|w ws IH]; simpl; auto.
  destruct (w_id w =? id) eqn:E; simpl; auto. rewrite E; auto.
Qed.

Lemma find_none_of_existsb {A} (p q : A -> bool) l :
  existsb p l = false -> find (fun x => p x && q x) l = None.
Proof.
  induction l as [|x l IH]; simpl; auto.
  intros H; apply orb_false_iff in H as [-> H]; simpl; auto.
Qed.

Lemma map_id_when_absent id (g : waitlist_entry -> waitlist_entry) ws :
  existsb (fun w => w_id w =? id) ws = false ->
  map (fun w => if w_id w =? id then g w else w) ws = ws.
Proof.
  induction ws as [|w ws IH]; simpl; auto.
  intros H; apply orb_false_iff in H as [-> H]. rewrite IH; auto.
Qed.

(** After a promotion the same request finds no entry to recheck. *)
Lemma patch_waitlist_after_promotion now now' id f d u :
  fst (patch_waitlist now' id f (promoted_db now id d u))
  = promoted_db now id d u.
Proof.
  set (d3 := promoted_db now id d u).
  assert (A : existsb (fun w => w_id w =? id) (waitlist d3) = false)
    by apply filter_none_has_id.
  destruct (patch_waitlist_cases now' id f d3)
    as [(e & _ & E)|(d1 & U & H)]; [rewrite E; reflexivity|].
  assert (D : d1 = d3).
  { destruct (update_waitlist_cases id f d3) as [[e H1]|[H1|H1]];
      rewrite H1 in U; injection U as <-; auto.
    rewrite map_id_when_absent; auto. }
  subst d1.
  destruct H as [(_ & E)|(u' & S & _)]; [rewrite E; reflexivity|].
  rewrite select_waitlist_eq, find_none_of_existsb in S; auto.
  discriminate.
Qed.

(** ** Touching intervals *)

(** A request that starts where a reservation ends does not conflict with
    it, and neither does one that ends where it starts. *)
Lemma touching_is_no_conflict c t s e r :
  (r_end_time r = TAt t /\ s = TAt t) \/ (r_start_time r = TAt t /\ e = TAt t) ->
  ~ conflicts_with c s e r.
Proof.
  intros H (_ & _ & a1 & b1 & a2 & b2 & Hs & He & Hs' & He' & H1 & H2).
  destruct H as [[Ht ->]|[Ht ->]]; rewrite Ht in *; injection Hs' || injection He';
    try injection He; try injection Hs; intros; subst; lia.
Qed.

(** * The properties *)

(** ** The no-overlap invariant *)

(** Taken in two parts, the handler is the handler. *)
Lemma patch_waitlist_in_two_parts now id f d :
  patch_waitlist now id f d
  = try_catch (x <- patch_waitlist_check id f ;;
               patch_waitlist_finish now id x) d.
Proof.
  unfold patch_waitlist, patch_waitlist_check, patch_waitlist_finish,
    select_waitlist; run_handler.
  destruct (update_waitlist id f d) as [d1 [[]|e]]; simpl; auto.
  destruct (find _ (waitlist d1)) as [u|]; reflexivity.
Qed.

(** C1, as amended: when the requests are handled one at a time, each
    handler running to its answer before the next starts, the invariant
    (no two active reservations of a court whose times are readable dates
    overlap) is kept by booking creation, waitlist creation, update and
    promotion, both deletions, and by the reservation updates whose keys
    are columns of the table other than court_id, start_time, end_time
    and status. *)
Theorem serve_preserves_no_double_booking qs d :
  Forall keeps_slot qs -> no_double_booking d ->
  no_double_booking (serve qs d).
Proof.
  intros K; revert d; induction K as [|q qs Kq _ IH]; simpl; intros d H; auto.
  apply IH, handle_preserves_no_double_booking; assumption.
Qed.

Lemma serve_preserves_no_double_booking_witness :
  Forall keeps_slot
    [PatchWaitlist 9 1 (priority_only 3); PatchReservation 1 (price_only 5);
     PostReservation 10 (ask 1 2 570 630)]
  /\ no_double_booking booked_and_next_waiting
  /\ List.length
       (reservations
          (serve [PatchWaitlist 9 1 (priority_only 3);
                  PatchReservation 1 (price_only 5);
                  PostReservation 10 (ask 1 2 570 630)]
                 booked_and_next_waiting)) = 2%nat
  /\ no_double_booking
       (serve [PatchWaitlist 9 1 (priority_only 3);
               PatchReservation 1 (price_only 5);
               PostReservation 10 (ask 1 2 570 630)]
              booked_and_next_waiting).
Proof.
  assert (K : Forall keeps_slot
                [PatchWaitlist 9 1 (priority_only 3);
                 PatchReservation 1 (price_only 5);
                 PostReservation 10 (ask 1 2 570 630)]).
  { repeat constructor. }
  assert (I : no_double_booking booked_and_next_waiting)
    by (apply no_double_bookingb_spec; reflexivity).
  split; [exact K|split; [exact I|split; [reflexivity|]]].
  exact (serve_preserves_no_double_booking _ _ K I).
Defined.

(** C1 fails in two ways.  The reservation update: moving the second of
    two back-to-back bookings half an hour earlier is answered 200 and
    leaves two active reservations of court 1 that overlap.  Two waitlist
    updates in flight together: entries 1 and 2 wait for the same hour of
    court 1, which is free; both conflict queries run before either
    INSERT, both find nothing, both requests are answered 201, and the
    hour is booked twice.  Besides, entries whose start [datetime()]
    cannot read are all turned into reservations, one request after the
    other: such rows are outside the invariant. *)
Lemma double_booking_by_update_and_by_interleaving :
  no_double_booking back_to_back
  /\ code (snd (patch_reservations 2 (move_to 570 630) back_to_back)) = 200
  /\ ~ no_double_booking
         (fst (patch_reservations 2 (move_to 570 630) back_to_back))
  /\ no_double_booking two_waiting
  /\ code (fst (snd (interleaved_waitlist_updates 9 1 (priority_only 3)
                       9 2 (priority_only 3) two_waiting))) = 201
  /\ code (snd (snd (interleaved_waitlist_updates 9 1 (priority_only 3)
                       9 2 (priority_only 3) two_waiting))) = 201
  /\ ~ no_double_booking
         (fst (interleaved_waitlist_updates 9 1 (priority_only 3)
                 9 2 (priority_only 3) two_waiting))
  /\ map (fun r => (r_court_id r, r_start_time r, r_end_time r, r_status r))
         (reservations
            (serve [PatchWaitlist 9 1 (priority_only 3);
                    PatchWaitlist 9 2 (priority_only 3)] two_unreadable))
     = [(1, TBad, TAt 600, Some "booked"); (1, TBad, TAt 600, Some "booked")].
Proof.
  split; [apply no_double_bookingb_spec; reflexivity|].
  split; [reflexivity|].
  split; [rewrite <- no_double_bookingb_spec; vm_compute; discriminate|].
  split; [apply no_double_bookingb_spec; reflexivity|].
  split; [reflexivity|].
  split; [reflexivity|].
  split; [rewrite <- no_double_bookingb_spec; vm_compute; discriminate|].
  reflexivity.
Qed.

(** ** Booking creation *)

(** C2, on the code: whenever no active reservation of the court overlaps
    the requested interval, the handler inserts no reservation and returns
    no created booking; it leaves the database as it was and answers 500,
    the read of [payment_status] having thrown. *)
Theorem free_slot_request_throws now b d c s e :
  b_court_id b = Some c -> b_start_time b = Some s -> b_end_time b = Some e ->
  (forall r, In r (reservations d) -> ~ conflicts_with c s e r) ->
  post_reservations now b d
  = (d, respond 500 (BError (ReferenceError "payment_status"))).
Proof.
  intros Hc Hs He H. apply post_reservations_no_conflict.
  rewrite Hc, Hs, He. apply conflict_query_nil; assumption.
Qed.

Lemma free_slot_request_throws_witness :
  (forall r, In r (reservations free_court) ->
             ~ conflicts_with 1 (TAt 540) (TAt 600) r)
  /\ post_reservations 0 (ask 1 1 540 600) free_court
     = (free_court, respond 500 (BError (ReferenceError "payment_status"))).
Proof.
  assert (H : forall r, In r (reservations free_court) ->
                        ~ conflicts_with 1 (TAt 540) (TAt 600) r)
    by (intros r []).
  split; [exact H|].
  exact (free_slot_request_throws 0 (ask 1 1 540 600) free_court 1
           (TAt 540) (TAt 600) eq_refl eq_refl eq_refl H).
Defined.

(** C3: a request that overlaps an active reservation of its court is
    answered with the conflict status, leaves the reservations as they
    were, and adds exactly one entry to the waitlist, waiting, with the
    court, player and interval of the request. *)
Theorem conflict_goes_to_waitlist now b d c p s e r :
  b_court_id b = Some c -> b_player_id b = Some p ->
  b_start_time b = Some (TAt s) -> b_end_time b = Some (TAt e) ->
  In r (reservations d) -> active r -> r_court_id r = c ->
  times_overlap (r_start_time r) (r_end_time r) (TAt s) (TAt e) ->
  exists w : waitlist_entry,
    code (snd (post_reservations now b d)) = 409
    /\ reservations (fst (post_reservations now b d)) = reservations d
    /\ waitlist (fst (post_reservations now b d)) = (waitlist d ++ [w])%list
    /\ w_status w = Some "waiting"
    /\ w_court_id w = c /\ w_player_id w = p
    /\ w_start_time w = TAt s /\ w_end_time w = TAt e.
Proof.
  intros Hc Hp Hs He Hin Ha Hrc Ho.
  assert (C : conflict_query (reservations d) (b_court_id b)
                (b_start_time b) (b_end_time b) <> []).
  { rewrite Hc, Hs, He. apply (conflict_query_found _ _ _ _ r Hin).
    repeat split; assumption. }
  rewrite (post_reservations_conflict now b d c p (TAt s) (TAt e) C Hc Hp Hs He).
  eexists; simpl; repeat split; reflexivity.
Qed.

Lemma conflict_goes_to_waitlist_witness :
  exists w : waitlist_entry,
    code (snd (post_reservations 7 (ask 1 2 600 660) half_past_booking)) = 409
    /\ reservations (fst (post_reservations 7 (ask 1 2 600 660) half_past_booking))
       = reservations half_past_booking
    /\ waitlist (fst (post_reservations 7 (ask 1 2 600 660) half_past_booking))
       = (waitlist half_past_booking ++ [w])%list
    /\ w_status w = Some "waiting"
    /\ w_court_id w = 1 /\ w_player_id w = 2
    /\ w_start_time w = TAt 600 /\ w_end_time w = TAt 660.
Proof.
  apply (conflict_goes_to_waitlist 7 (ask 1 2 600 660) half_past_booking
           1 2 600 660 (booking 1 1 630 690 "booked"));
    try reflexivity.
  - simpl; auto.
  - left; reflexivity.
  - exists 630, 690, 600, 660; unfold overlap; repeat split; lia.
Defined.

(** C7, at the back-to-back request: the request for [[600,660)] after the
    booking [[540,600)] of the same court is no conflict, as the claim
    says, but it does not succeed as a booking: the handler answers 500
    and the table keeps its single row. *)
Theorem back_to_back_request_throws :
  conflict_query (reservations one_booking) (Some 1) (Some (TAt 600))
                 (Some (TAt 660)) = []
  /\ post_reservations 0 (ask 1 2 600 660) one_booking
     = (one_booking, respond 500 (BError (ReferenceError "payment_status"))).
Proof. split; reflexivity. Qed.

(** C9 fails: a request of an unknown player whose interval ends before it
    starts is not refused; it overlaps the booking of court 1, so it is
    answered with the conflict status and stored in the waitlist. *)
Lemma invalid_request_is_waitlisted :
  player_existsb one_booking 9 = false
  /\ 580 <= 590
  /\ post_reservations 7 (ask 1 9 590 580) one_booking
     = (set_waitlist one_booking
          [waiting_entry 1 7 1 9 (TAt 590) (TAt 580)] 1,
        respond 409 (BText conflict_message)).
Proof. split; [reflexivity|split; [lia|reflexivity]]. Qed.

(** C9, as amended: the handler checks neither the court, nor the player,
    nor the order of start and end. A request with a court that is unknown
    or inactive, a player that is unknown, or start >= end is handled like
    any other: if it overlaps an active reservation of the court id it is
    answered with the conflict status and stored in the waitlist. *)
Theorem post_reservations_validates_nothing now b d c p s e r :
  b_court_id b = Some c -> b_player_id b = Some p ->
  b_start_time b = Some (TAt s) -> b_end_time b = Some (TAt e) ->
  e <= s \/ court_activeb d c = false \/ player_existsb d p = false ->
  In r (reservations d) -> conflicts_with c (TAt s) (TAt e) r ->
  post_reservations now b d
  = (set_waitlist d
       (waitlist d ++
          [waiting_entry (next_id (seq_waitlist d) (map w_id (waitlist d)))
                         now c p (TAt s) (TAt e)])
       (next_id (seq_waitlist d) (map w_id (waitlist d))),
     respond 409 (BText conflict_message)).
Proof.
  intros Hc Hp Hs He _ Hin Hcw.
  apply post_reservations_conflict; auto.
  rewrite Hc, Hs, He. apply (conflict_query_found _ _ _ _ r Hin Hcw).
Qed.

Lemma post_reservations_validates_nothing_witness :
  (580 <= 590 \/ court_activeb one_booking 1 = false
   \/ player_existsb one_booking 9 = false)
  /\ conflicts_with 1 (TAt 590) (TAt 580) (booking 1 1 540 600 "booked")
  /\ post_reservations 7 (ask 1 9 590 580) one_booking
     = (set_waitlist one_booking
          (waitlist one_booking ++
             [waiting_entry
                (next_id (seq_waitlist one_booking)
                         (map w_id (waitlist one_booking)))
                7 1 9 (TAt 590) (TAt 580)])
          (next_id (seq_waitlist one_booking)
                   (map w_id (waitlist one_booking))),
        respond 409 (BText conflict_message)).
Proof.
  assert (I : 580 <= 590 \/ court_activeb one_booking 1 = false
              \/ player_existsb one_booking 9 = false) by (left; lia).
  assert (C : conflicts_with 1 (TAt 590) (TAt 580)
                (booking 1 1 540 600 "booked")).
  { split; [left; reflexivity|split; [reflexivity|]].
    exists 540, 600, 590, 580; unfold overlap; repeat split; lia. }
  split; [exact I|split; [exact C|]].
  apply (post_reservations_validates_nothing 7 (ask 1 9 590 580) one_booking
           1 9 590 580 (booking 1 1 540 600 "booked"));
    try reflexivity; auto.
  simpl; auto.
Defined.

(** ** Cancellation *)

(** C4 fails: booking 1 holds [[540,600)] and entry 1 waits for the same
    interval. Cancelling the booking, by the update or by the deletion,
    leaves the entry waiting and creates no reservation for it, although
    nothing conflicts with it any more. *)
Lemma cancelling_sweeps_nothing :
  fst (patch_reservations 1 (status_only "cancelled") booked_and_waiting)
  = sample_db [booking 1 1 540 600 "cancelled"] [entry 1 2 540 600 "waiting"]
  /\ reservations (fst (delete_reservations 1 booked_and_waiting)) = []
  /\ waitlist (fst (delete_reservations 1 booked_and_waiting))
     = [entry 1 2 540 600 "waiting"]
  /\ conflict_query [booking 1 1 540 600 "cancelled"] (Some 1)
       (Some (TAt 540)) (Some (TAt 600)) = [].
Proof. repeat split; reflexivity. Qed.

(** C4, as amended: cancelling a booking triggers no promotion. The
    reservation update and the reservation deletion leave the waitlist as
    it was and create no reservation: the update keeps the number of rows,
    the deletion keeps the rows with another id. *)
Theorem cancelling_promotes_nothing id f d :
  waitlist (fst (patch_reservations id f d)) = waitlist d
  /\ List.length (reservations (fst (patch_reservations id f d)))
     = List.length (reservations d)
  /\ waitlist (fst (delete_reservations id d)) = waitlist d
  /\ reservations (fst (delete_reservations id d))
     = filter (fun r => negb (r_id r =? id)) (reservations d).
Proof.
  destruct (patch_reservations_cases id f d) as [E|E]; rewrite E; simpl;
    rewrite ?length_map; auto.
Qed.

(** C8 fails: a cancelled booking is set back to booked by the update,
    which answers 200. *)
Lemma cancelled_booking_rebooked :
  patch_reservations 1 (status_only "booked") cancelled_booking
  = (one_booking,
     respond 200 (BReservation (Some (booking 1 1 540 600 "booked")))).
Proof. reflexivity. Qed.

(** C8, as amended: the reservation update sets the status to whichever of
    booked, cancelled and completed the request gives, whatever the status
    was; it answers 200. *)
Theorem patch_reservations_sets_any_status id s d r :
  In r (reservations d) -> r_id r = id -> In s reservation_statuses ->
  code (snd (patch_reservations id (status_only s) d)) = 200
  /\ reservations (fst (patch_reservations id (status_only s) d))
     = map (fun x => if r_id x =? id then with_status s x else x)
           (reservations d).
Proof.
  intros Hin Hid Hs.
  assert (Ex : existsb (fun x => r_id x =? id) (reservations d) = true).
  { apply existsb_exists; exists r; split; auto. now apply Z.eqb_eq. }
  assert (Cs : check_status (Some s) reservation_statuses = Ok tt).
  { unfold check_status, sql_in.
    replace (existsb (String.eqb s) reservation_statuses) with true; auto.
    symmetry; apply existsb_exists; exists s; split; auto.
    apply String.eqb_refl. }
  unfold patch_reservations, update_reservations, select_reservation,
    check_set; run_handler.
  rewrite Ex, Cs; simpl; auto.
Qed.

Lemma patch_reservations_sets_any_status_witness :
  In (booking 1 1 540 600 "cancelled") (reservations cancelled_booking)
  /\ In "booked" reservation_statuses
  /\ code (snd (patch_reservations 1 (status_only "booked") cancelled_booking))
     = 200
  /\ reservations
       (fst (patch_reservations 1 (status_only "booked") cancelled_booking))
     = map (fun x => if r_id x =? 1 then with_status "booked" x else x)
           (reservations cancelled_booking).
Proof.
  assert (I : In (booking 1 1 540 600 "cancelled")
                 (reservations cancelled_booking)) by (simpl; auto).
  assert (S : In "booked" reservation_statuses) by (simpl; auto).
  split; [exact I|split; [exact S|]].
  exact (patch_reservations_sets_any_status 1 "booked" cancelled_booking
           (booking 1 1 540 600 "cancelled") I eq_refl S).
Defined.

(** ** Promotion *)

(** C5 fails: after the promotion of entry 1 the waitlist is empty; the
    entry is not kept with status booked. *)
Lemma promoted_entry_is_gone :
  code (snd (patch_waitlist 9 1 (priority_only 3) one_waiting)) = 201
  /\ reservations (fst (patch_waitlist 9 1 (priority_only 3) one_waiting))
     = [{| r_id := 1; r_court_id := 1; r_player_id := 2;
           r_start_time := TAt 540; r_end_time := TAt 600;
           r_status := Some "booked"; r_price_cents := Some 0;
           r_created_at := Some (TAt 9) |}]
  /\ waitlist (fst (patch_waitlist 9 1 (priority_only 3) one_waiting)) = [].
Proof. repeat split; reflexivity. Qed.

(** C5, as amended: when the updated entry comes back from the waitlist
    and the conflict query on its court and interval is empty, a
    reservation with status booked is inserted for its court, player and
    interval, the answer is 201, and the entry is deleted: no entry of the
    waitlist has its id afterwards. *)
Theorem promotion_deletes_entry now id f d d1 u :
  update_waitlist id f d = (d1, Ok tt) ->
  select_waitlist id d1 = (d1, Ok (Some u)) ->
  conflict_query (reservations d1) (Some (w_court_id u))
    (Some (w_start_time u)) (Some (w_end_time u)) = [] ->
  exists r : reservation,
    code (snd (patch_waitlist now id f d)) = 201
    /\ reservations (fst (patch_waitlist now id f d))
       = (reservations d ++ [r])%list
    /\ r_status r = Some "booked"
    /\ r_court_id r = w_court_id u /\ r_player_id r = w_player_id u
    /\ r_start_time r = w_start_time u /\ r_end_time r = w_end_time u
    /\ waitlist (fst (patch_waitlist now id f d))
       = filter (fun w => negb (w_id w =? id)) (waitlist d1)
    /\ forall w, In w (waitlist (fst (patch_waitlist now id f d))) ->
                 w_id w <> id.
Proof.
  intros U S C.
  destruct (patch_waitlist_cases now id f d)
    as [(e & U' & _)|(d1' & U' & H)]; rewrite U in U'; [discriminate|].
  injection U' as <-.
  destruct H as [(S' & _)|(u' & S' & H)]; rewrite S in S'; [discriminate|].
  injection S' as <-.
  destruct H as [(C' & _)|(_ & E)]; [contradiction|].
  apply update_waitlist_frame in U as (_ & _ & R & _).
  exists (promoted_reservation now d1 u); rewrite E; simpl.
  rewrite R; repeat split; auto.
  intros w Hw; apply filter_In in Hw as [_ Hw].
  apply negb_true_iff, Z.eqb_neq in Hw; assumption.
Qed.

Lemma promotion_deletes_entry_witness :
  exists r : reservation,
    code (snd (patch_waitlist 9 1 (priority_only 3) one_waiting)) = 201
    /\ reservations (fst (patch_waitlist 9 1 (priority_only 3) one_waiting))
       = (reservations one_waiting ++ [r])%list
    /\ r_status r = Some "booked"
    /\ r_court_id r = 1 /\ r_player_id r = 2
    /\ r_start_time r = TAt 540 /\ r_end_time r = TAt 600
    /\ waitlist (fst (patch_waitlist 9 1 (priority_only 3) one_waiting))
       = filter (fun w => negb (w_id w =? 1))
                [entry_with_priority 3 (entry 1 2 540 600 "waiting")]
    /\ forall w,
         In w (waitlist (fst (patch_waitlist 9 1 (priority_only 3) one_waiting))) ->
         w_id w <> 1.
Proof.
  apply (promotion_deletes_entry 9 1 (priority_only 3) one_waiting
           (sample_db [] [entry_with_priority 3 (entry 1 2 540 600 "waiting")])
           (entry_with_priority 3 (entry 1 2 540 600 "waiting")));
    reflexivity.
Defined.

(** C6 fails: the recheck does not look at the status of the entry. Entry
    1 is cancelled; updating its priority turns it into a reservation. *)
Lemma cancelled_entry_is_promoted :
  w_status (entry 1 2 540 600 "cancelled") = Some "cancelled"
  /\ code (snd (patch_waitlist 9 1 (priority_only 3) one_cancelled_entry)) = 201
  /\ reservations
       (fst (patch_waitlist 9 1 (priority_only 3) one_cancelled_entry))
     = [{| r_id := 1; r_court_id := 1; r_player_id := 2;
           r_start_time := TAt 540; r_end_time := TAt 600;
           r_status := Some "booked"; r_price_cents := Some 0;
           r_created_at := Some (TAt 9) |}].
Proof. repeat split; reflexivity. Qed.

(** C6, as amended: for a body whose keys are columns of the waitlist,
    the waitlist update is idempotent. Run a second time with the same id
    and fields on the database the first run left, it changes nothing: it
    promotes nothing new and leaves both tables as they were (after a
    promotion the entry is gone, so the second run finds no row;
    otherwise it repeats the same update and meets the same conflicts). *)
Theorem patch_waitlist_idempotent now now' id f d :
  wf_other f = [] ->
  fst (patch_waitlist now' id f (fst (patch_waitlist now id f d)))
  = fst (patch_waitlist now id f d).
Proof.
  intros _.
  destruct (patch_waitlist_cases now id f d)
    as [(e & U & E)|(d1 & U & H)].
  - rewrite E; simpl.
    destruct (patch_waitlist_cases now' id f d)
      as [(e' & _ & E')|(d1' & U' & _)]; [rewrite E'; reflexivity|].
    rewrite U in U'; discriminate.
  - apply update_waitlist_idem in U.
    destruct H as [(S & E)|(u & S & [(C & E)|(C & E)])]; rewrite E; simpl;
      try apply patch_waitlist_after_promotion;
      destruct (patch_waitlist_cases now' id f d1)
        as [(e' & U' & _)|(d1' & U' & H')];
      rewrite U in U'; try discriminate; injection U' as <-;
      destruct H' as [(S' & E')|(u' & S' & [(C' & E')|(C' & E')])];
      rewrite S in S'; try discriminate; try (rewrite E'; reflexivity);
      injection S' as <-; contradiction.
Qed.

Lemma patch_waitlist_idempotent_witness :
  wf_other (priority_only 3) = []
  /\ code (snd (patch_waitlist 9 1 (priority_only 3) one_waiting)) = 201
  /\ fst (patch_waitlist 10 1 (priority_only 3)
            (fst (patch_waitlist 9 1 (priority_only 3) one_waiting)))
     = fst (patch_waitlist 9 1 (priority_only 3) one_waiting).
Proof.
  split; [reflexivity|split; [reflexivity|]].
  exact (patch_waitlist_idempotent 9 10 1 (priority_only 3) one_waiting
           eq_refl).
Defined.

(** C10: the waitlist update either answers 201, having appended one
    reservation, which has status booked and price_cents 0 and is the body
    of the answer, or it answers otherwise and leaves the reservations as
    they were; this for every entry and every body of the update. *)
Theorem promoted_booking_is_booked_at_zero now id f d :
  (code (snd (patch_waitlist now id f d)) = 201
   /\ exists r : reservation,
        reservations (fst (patch_waitlist now id f d))
        = (reservations d ++ [r])%list
        /\ payload (snd (patch_waitlist now id f d)) = BReservation (Some r)
        /\ r_status r = Some "booked" /\ r_price_cents r = Some 0)
  \/ (code (snd (patch_waitlist now id f d)) <> 201
      /\ reservations (fst (patch_waitlist now id f d)) = reservations d).
Proof.
  destruct (patch_waitlist_cases now id f d)
    as [(e & _ & E)|(d1 & U & H)].
  - right; rewrite E; simpl; split; [discriminate|reflexivity].
  - apply update_waitlist_frame in U as (_ & _ & R & _).
    destruct H as [(_ & E)|(u & _ & [(_ & E)|(_ & E)])]; rewrite E; simpl.
    + right; split; [discriminate|assumption].
    + right; split; [discriminate|assumption].
    + left; split; [reflexivity|].
      exists (promoted_reservation now d1 u); rewrite <- R; auto.
Qed.

(** * Further properties of the handlers *)

(** ** The conflict query *)

(** X1: the conflict query returns exactly the ids of the reservations
    that are active (booked or completed), on the requested court, and
    whose interval overlaps the requested one as half-open intervals;
    cancelled rows, other courts and touching intervals are left out. *)
Theorem conflict_query_selects rs c s e i :
  In i (conflict_query rs (Some c) (Some s) (Some e))
  <-> exists r, In r rs /\ r_id r = i /\ conflicts_with c s e r.
Proof.
  unfold conflict_query. rewrite in_map_iff. split.
  - intros (r & Hi & Hr). apply filter_In in Hr as [Hin Hc].
    exists r; split; [assumption|split; [assumption|]].
    apply conflict_where_spec; assumption.
  - intros (r & Hin & Hi & Hc). exists r; split; auto.
    apply filter_In; split; auto. apply conflict_where_spec; assumption.
Qed.

(** With a null court id, or a start or end that is null or that
    [datetime()] cannot read, the conflict query selects nothing, whatever
    the table holds. *)
Lemma conflict_query_null_parameter rs c s e :
  c = None \/ datetime s = None \/ datetime e = None ->
  conflict_query rs c s e = [].
Proof.
  intros H; unfold conflict_query.
  induction rs as [|r rs IH]; simpl; auto.
  rewrite (conflict_where_false c s e r H); assumption.
Qed.

(** ** Booking creation and the recheck, at their edges *)

(** X2: a conflicting request that carries no player id is refused by the
    NOT NULL constraint of the waitlist: the answer is 500 and neither
    table is written. *)
Theorem conflict_without_player_writes_nothing now b d :
  conflict_query (reservations d) (b_court_id b) (b_start_time b)
                 (b_end_time b) <> [] ->
  b_player_id b = None ->
  post_reservations now b d
  = (d, respond 500 (BError (SqlError (NotNullFailed "player_id")))).
Proof.
  intros C Hp. unfold post_reservations; run_handler.
  destruct (conflict_query _ _ _ _) as [|x l] eqn:E; [contradiction|]; simpl.
  assert (Hc : b_court_id b <> None).
  { intros Hc. rewrite conflict_query_null_parameter in E; auto; discriminate. }
  unfold insert_waitlist; run_handler.
  destruct (b_court_id b); [|contradiction]. rewrite Hp; reflexivity.
Qed.

Lemma conflict_without_player_writes_nothing_witness :
  conflict_query (reservations one_booking) (Some 1) (Some (TAt 570))
                 (Some (TAt 630)) <> []
  /\ post_reservations 7 (no_player_ask 570 630) one_booking
     = (one_booking,
        respond 500 (BError (SqlError (NotNullFailed "player_id")))).
Proof.
  assert (C : conflict_query (reservations one_booking)
                (b_court_id (no_player_ask 570 630))
                (b_start_time (no_player_ask 570 630))
                (b_end_time (no_player_ask 570 630)) <> [])
    by (vm_compute; discriminate).
  split; [exact C|].
  exact (conflict_without_player_writes_nothing 7 (no_player_ask 570 630)
           one_booking C eq_refl).
Defined.

(** X3: the recheck of an entry whose start or end [datetime()] cannot
    read finds no conflict, so the entry is turned into a reservation
    (answer 201) whatever reservations the court already has. *)
Theorem unreadable_entry_is_promoted now id f d d1 u :
  update_waitlist id f d = (d1, Ok tt) ->
  select_waitlist id d1 = (d1, Ok (Some u)) ->
  w_start_time u = TBad \/ w_end_time u = TBad ->
  patch_waitlist now id f d
  = (promoted_db now id d1 u,
     respond 201 (BReservation (Some (promoted_reservation now d1 u)))).
Proof.
  intros U S B.
  assert (C : conflict_query (reservations d1) (Some (w_court_id u))
                (Some (w_start_time u)) (Some (w_end_time u)) = []).
  { apply conflict_query_null_parameter.
    destruct B as [-> | ->]; simpl; auto. }
  destruct (patch_waitlist_cases now id f d)
    as [(e & U' & _)|(d1' & U' & H)]; rewrite U in U'; [discriminate|].
  injection U' as <-.
  destruct H as [(S' & _)|(u' & S' & H)]; rewrite S in S'; [discriminate|].
  injection S' as <-.
  destruct H as [(C' & _)|(_ & E)]; [contradiction|assumption].
Qed.

Lemma unreadable_entry_is_promoted_witness :
  (w_start_time (entry_with_priority 3 (unreadable_entry 1 2 600)) = TBad
   \/ w_end_time (entry_with_priority 3 (unreadable_entry 1 2 600)) = TBad)
  /\ patch_waitlist 9 1 (priority_only 3) booked_and_unreadable
     = (promoted_db 9 1
          (sample_db [booking 1 1 540 600 "booked"]
                     [entry_with_priority 3 (unreadable_entry 1 2 600)])
          (entry_with_priority 3 (unreadable_entry 1 2 600)),
        respond 201
          (BReservation
             (Some (promoted_reservation 9
                      (sample_db [booking 1 1 540 600 "booked"]
                         [entry_with_priority 3 (unreadable_entry 1 2 600)])
                      (entry_with_priority 3 (unreadable_entry 1 2 600)))))).
Proof.
  assert (B : w_start_time (entry_with_priority 3 (unreadable_entry 1 2 600))
              = TBad
              \/ w_end_time (entry_with_priority 3 (unreadable_entry 1 2 600))
                 = TBad) by (left; reflexivity).
  split; [exact B|].
  exact (unreadable_entry_is_promoted 9 1 (priority_only 3)
           booked_and_unreadable
           (sample_db [booking 1 1 540 600 "booked"]
                      [entry_with_priority 3 (unreadable_entry 1 2 600)])
           (entry_with_priority 3 (unreadable_entry 1 2 600))
           eq_refl eq_refl B).
Defined.

(** X4: when the updated entry overlaps an active reservation of its
    court, the update is kept, nothing else is written, and the answer is
    200 with the updated entry: it stays in the waitlist. *)
Theorem conflicting_entry_stays now id f d d1 u r :
  update_waitlist id f d = (d1, Ok tt) ->
  select_waitlist id d1 = (d1, Ok (Some u)) ->
  In r (reservations d) ->
  conflicts_with (w_court_id u) (w_start_time u) (w_end_time u) r ->
  patch_waitlist now id f d = (d1, respond 200 (BWaitlist (Some u)))
  /\ reservations d1 = reservations d /\ In u (waitlist d1).
Proof.
  intros U S Hin Hc.
  pose proof (update_waitlist_frame _ _ _ _ _ U) as (_ & _ & R & _).
  assert (C : conflict_query (reservations d1) (Some (w_court_id u))
                (Some (w_start_time u)) (Some (w_end_time u)) <> []).
  { rewrite R. apply (conflict_query_found _ _ _ _ r Hin Hc). }
  assert (I : In u (waitlist d1)).
  { rewrite select_waitlist_eq in S. injection S as S.
    apply find_some in S; tauto. }
  destruct (patch_waitlist_cases now id f d)
    as [(e & U' & _)|(d1' & U' & H)]; rewrite U in U'; [discriminate|].
  injection U' as <-.
  destruct H as [(S' & _)|(u' & S' & H)]; rewrite S in S'; [discriminate|].
  injection S' as <-.
  destruct H as [(_ & E)|(C' & _)]; [auto|contradiction].
Qed.

Lemma conflicting_entry_stays_witness :
  conflicts_with 1 (TAt 540) (TAt 600) (booking 1 1 540 600 "booked")
  /\ patch_waitlist 9 1 (priority_only 3) booked_and_waiting
     = (sample_db [booking 1 1 540 600 "booked"]
                  [entry_with_priority 3 (entry 1 2 540 600 "waiting")],
        respond 200
          (BWaitlist
             (Some (entry_with_priority 3 (entry 1 2 540 600 "waiting")))))
  /\ reservations
       (sample_db [booking 1 1 540 600 "booked"]
                  [entry_with_priority 3 (entry 1 2 540 600 "waiting")])
     = reservations booked_and_waiting
  /\ In (entry_with_priority 3 (entry 1 2 540 600 "waiting"))
        (waitlist
           (sample_db [booking 1 1 540 600 "booked"]
                      [entry_with_priority 3 (entry 1 2 540 600 "waiting")])).
Proof.
  assert (C : conflicts_with 1 (TAt 540) (TAt 600)
                (booking 1 1 540 600 "booked")).
  { split; [left; reflexivity|split; [reflexivity|]].
    exists 540, 600, 540, 600; unfold overlap; repeat split; lia. }
  split; [exact C|].
  exact (conflicting_entry_stays 9 1 (priority_only 3) booked_and_waiting
           (sample_db [booking 1 1 540 600 "booked"]
                      [entry_with_priority 3 (entry 1 2 540 600 "waiting")])
           (entry_with_priority 3 (entry 1 2 540 600 "waiting"))
           (booking 1 1 540 600 "booked")
           eq_refl eq_refl (or_introl eq_refl) C).
Defined.

(** ** The PATCH handlers at their edges *)

Lemma existsb_eqb_in s l : existsb (String.eqb s) l = true <-> In s l.
Proof.
  rewrite existsb_exists; split.
  - intros (x & Hx & E). apply String.eqb_eq in E; subst; assumption.
  - intros H; exists s; split; auto. apply String.eqb_refl.
Qed.

Lemma check_status_ok st allowed :
  check_status st allowed = Ok tt <-> status_allowed allowed st.
Proof.
  unfold check_status, status_allowed, sql_in.
  destruct st as [s|]; simpl.
  - destruct (existsb (String.eqb s) allowed) eqn:E; simpl; split; auto.
    + intros _; right; exists s; split; auto. apply existsb_eqb_in; auto.
    + discriminate.
    + intros [H|(x & H & Hx)]; [discriminate|]. injection H as <-.
      apply existsb_eqb_in in Hx. rewrite Hx in E; discriminate.
  - split; auto.
Qed.

Lemma update_reservations_throws id f d e :
  update_reservations id f d = (d, Threw e) ->
  patch_reservations id f d = (d, respond 500 (BError e)).
Proof.
  intros H; unfold patch_reservations; run_handler; rewrite H; reflexivity.
Qed.

(** What passes [check_set]. *)
Lemma check_set_ok id c p s e st allowed :
  check_set id c p s e st allowed = Ok tt ->
  check_new_id id = Ok tt /\ c <> Some None /\ p <> Some None
  /\ s <> Some None /\ e <> Some None
  /\ forall v, st = Some v -> check_status v allowed = Ok tt.
Proof.
  unfold check_set, and_then.
  destruct (check_new_id id) as [[]|?]; [|discriminate].
  destruct c as [[?|]|]; simpl; try discriminate;
    destruct p as [[?|]|]; simpl; try discriminate;
    destruct s as [[?|]|]; simpl; try discriminate;
    destruct e as [[?|]|]; simpl; try discriminate;
    intros H; repeat split; try discriminate;
    intros v Hv; subst st; assumption.
Qed.

(** X5: a PATCH whose body is empty is answered 500 and writes nothing,
    for reservations and for the waitlist, whether or not a row has the
    id: the UPDATE has no SET clause and is refused. *)
Theorem patch_empty_body_writes_nothing now id f g d :
  rf_no_keys f = true -> wf_no_keys g = true ->
  patch_reservations id f d = (d, respond 500 (BError (SqlError SyntaxError)))
  /\ patch_waitlist now id g d
     = (d, respond 500 (BError (SqlError SyntaxError))).
Proof.
  intros Hf Hg.
  assert (R : update_reservations id f d = (d, Threw (SqlError SyntaxError)))
    by (unfold update_reservations; rewrite Hf; reflexivity).
  assert (W : update_waitlist id g d = (d, Threw (SqlError SyntaxError)))
    by (unfold update_waitlist; rewrite Hg; reflexivity).
  split; [apply update_reservations_throws; assumption|].
  destruct (patch_waitlist_cases now id g d)
    as [(e2 & U & E)|(d1 & U & _)]; rewrite W in U; [|discriminate].
  injection U as <-; assumption.
Qed.

Lemma patch_empty_body_writes_nothing_witness :
  rf_no_keys no_fields = true /\ wf_no_keys no_waitlist_fields = true
  /\ patch_reservations 1 no_fields booked_and_waiting
     = (booked_and_waiting, respond 500 (BError (SqlError SyntaxError)))
  /\ patch_waitlist 9 1 no_waitlist_fields booked_and_waiting
     = (booked_and_waiting, respond 500 (BError (SqlError SyntaxError))).
Proof.
  split; [reflexivity|split; [reflexivity|]].
  exact (patch_empty_body_writes_nothing 9 1 no_fields no_waitlist_fields
           booked_and_waiting eq_refl eq_refl).
Defined.

Lemma existsb_id_absent {A} (key : A -> Z) id l :
  (forall x, In x l -> key x <> id) ->
  existsb (fun x => key x =? id) l = false.
Proof.
  intros H; induction l as [|x l IH]; simpl; auto.
  apply orb_false_iff; split.
  - apply Z.eqb_neq, H; now left.
  - apply IH; intros y Hy; apply H; now right.
Qed.

(** X6: a PATCH of a reservation id that no row has writes nothing and is
    answered 200 with no row in the body, even when the values it carries
    would be refused by a constraint. *)
Theorem patch_reservations_absent_id id f d :
  rf_no_keys f = false -> rf_other f = [] ->
  (forall r, In r (reservations d) -> r_id r <> id) ->
  patch_reservations id f d = (d, respond 200 (BReservation None)).
Proof.
  intros Hk Ho Ha. apply existsb_id_absent in Ha.
  unfold patch_reservations, update_reservations, select_reservation.
  rewrite Hk, Ho; run_handler. rewrite Ha; simpl.
  rewrite (find_none_of_existsb _ _ _ Ha); reflexivity.
Qed.

Lemma patch_reservations_absent_id_witness :
  (forall r, In r (reservations one_booking) -> r_id r <> 5)
  /\ patch_reservations 5 (status_only "bogus") one_booking
     = (one_booking, respond 200 (BReservation None)).
Proof.
  assert (A : forall r, In r (reservations one_booking) -> r_id r <> 5).
  { intros r [<-|[]]; simpl; lia. }
  split; [exact A|].
  exact (patch_reservations_absent_id 5 (status_only "bogus") one_booking
           eq_refl eq_refl A).
Defined.

(** X7: a PATCH of a waitlist id that no row has writes nothing and is
    answered 500: the handler destructures the row that did not come
    back. *)
Theorem patch_waitlist_absent_id now id f d :
  wf_no_keys f = false -> wf_other f = [] ->
  (forall w, In w (waitlist d) -> w_id w <> id) ->
  patch_waitlist now id f d = (d, respond 500 (BError TypeError)).
Proof.
  intros Hk Ho Ha. apply existsb_id_absent in Ha.
  unfold patch_waitlist, update_waitlist, select_waitlist.
  rewrite Hk, Ho; run_handler. rewrite Ha; simpl.
  rewrite (find_none_of_existsb _ _ _ Ha); reflexivity.
Qed.

Lemma patch_waitlist_absent_id_witness :
  (forall w, In w (waitlist one_waiting) -> w_id w <> 5)
  /\ patch_waitlist 9 5 (priority_only 3) one_waiting
     = (one_waiting, respond 500 (BError TypeError)).
Proof.
  assert (A : forall w, In w (waitlist one_waiting) -> w_id w <> 5).
  { intros w [<-|[]]; simpl; lia. }
  split; [exact A|].
  exact (patch_waitlist_absent_id 9 5 (priority_only 3) one_waiting
           eq_refl eq_refl A).
Defined.

(** X8: on a reservation that exists, a PATCH whose keys are columns of
    the table and that would set the id, court, player, start or end to
    null, the status to a text other than booked, cancelled, completed, or
    the id to that of another row, is answered 500 and writes nothing. *)
Theorem patch_reservations_enforces_constraints id f d r :
  rf_other f = [] ->
  In r (reservations d) -> r_id r = id ->
  rf_id f = Some None \/ rf_court_id f = Some None
  \/ rf_player_id f = Some None \/ rf_start_time f = Some None
  \/ rf_end_time f = Some None
  \/ (exists s, rf_status f = Some (Some s) /\ ~ In s reservation_statuses)
  \/ (exists v, rf_id f = Some (Some v) /\ v <> id
                /\ In v (map r_id (reservations d))) ->
  fst (patch_reservations id f d) = d
  /\ code (snd (patch_reservations id f d)) = 500.
Proof.
  intros _ Hin Hid H.
  assert (T : exists e, update_reservations id f d = (d, Threw e)).
  { unfold update_reservations.
    destruct (rf_no_keys f); [eexists; reflexivity|].
    destruct (rf_other f); [|eexists; reflexivity].
    run_handler.
    replace (existsb (fun x => r_id x =? id) (reservations d)) with true
      by (symmetry; apply existsb_exists; exists r; split; auto;
          now apply Z.eqb_eq).
    destruct (check_set _ _ _ _ _ _ _) as [[]|e] eqn:Cs;
      [|eexists; reflexivity].
    destruct (check_unique _ _ _) as [[]|e] eqn:Cu; [|eexists; reflexivity].
    exfalso.
    apply check_set_ok in Cs as (Ci & Cc & Cp & Cst & Cen & Cs).
    destruct H as [H|[H|[H|[H|[H|[(s & H & Hs)|(v & H & Hv & Hi)]]]]]];
      try contradiction.
    - rewrite H in Ci; discriminate.
    - specialize (Cs (Some s) H). apply check_status_ok in Cs.
      destruct Cs as [Cs|(x & Cs & Hx)]; [discriminate|].
      injection Cs as <-; contradiction.
    - unfold check_unique in Cu. rewrite H in Cu.
      apply Z.eqb_neq in Hv. rewrite Hv in Cu; simpl in Cu.
      replace (existsb (Z.eqb v) (map r_id (reservations d))) with true in Cu
        by (symmetry; apply existsb_exists; exists v; split; auto;
            apply Z.eqb_refl).
      discriminate. }
  destruct T as [e T]. rewrite (update_reservations_throws _ _ _ _ T).
  split; reflexivity.
Qed.

Lemma patch_reservations_enforces_constraints_witness :
  rf_other (status_only "bogus") = []
  /\ In (booking 1 1 540 600 "booked") (reservations one_booking)
  /\ (exists s, rf_status (status_only "bogus") = Some (Some s)
                /\ ~ In s reservation_statuses)
  /\ fst (patch_reservations 1 (status_only "bogus") one_booking) = one_booking
  /\ code (snd (patch_reservations 1 (status_only "bogus") one_booking)) = 500.
Proof.
  assert (I : In (booking 1 1 540 600 "booked") (reservations one_booking))
    by (simpl; auto).
  assert (S : exists s, rf_status (status_only "bogus") = Some (Some s)
                        /\ ~ In s reservation_statuses).
  { exists "bogus"; split; [reflexivity|].
    simpl; intros [H|[H|[H|[]]]]; discriminate. }
  split; [reflexivity|split; [exact I|split; [exact S|]]].
  exact (patch_reservations_enforces_constraints 1 (status_only "bogus")
           one_booking (booking 1 1 540 600 "booked") eq_refl I eq_refl
           (or_intror (or_intror (or_intror (or_intror (or_intror
              (or_introl S))))))).
Defined.

(** ** Waitlist creation and the deletions *)

Lemma find_app_last_none {A} (p : A -> bool) l x :
  (forall y, In y l -> p y = false) -> p x = false ->
  find p (l ++ [x]) = None.
Proof.
  intros Hl Hx; induction l as [|y l IH]; simpl.
  - rewrite Hx; reflexivity.
  - rewrite (Hl y (or_introl eq_refl)). apply IH.
    intros z Hz; apply Hl; now right.
Qed.

Lemma filter_drops_last_only id ws w :
  (forall x, In x ws -> w_id x <> id) -> w_id w = id ->
  filter (fun x => negb (w_id x =? id)) (ws ++ [w]) = ws.
Proof.
  intros Hl Hw; rewrite filter_app; simpl.
  apply Z.eqb_eq in Hw; rewrite Hw; simpl. rewrite app_nil_r.
  induction ws as [|x ws IH]; simpl; auto.
  replace (w_id x =? id) with false
    by (symmetry; apply Z.eqb_neq, Hl; now left).
  simpl; f_equal; apply IH. intros y Hy; apply Hl; now right.
Qed.

(** X9: POST /api/waitlist stores the entry as sent (priority 0 and
    status waiting by default) without looking at the courts, the players
    or the reservations. The answer is 201; it carries the new row only if
    the court and the player exist. The id is new, and deleting it gives
    back the waitlist as it was. *)
Theorem post_waitlist_inserts_unchecked now b d c p s e :
  wb_court_id b = Some c -> wb_player_id b = Some p ->
  wb_start_time b = Some s -> wb_end_time b = Some e ->
  status_allowed waitlist_statuses (or_text (wb_status b) "waiting") ->
  post_waitlist now b d
  = (set_waitlist d (waitlist d ++ [posted_entry now d b c p s e])
       (w_id (posted_entry now d b c p s e)),
     respond 201
       (BWaitlist (if joins d c p then Some (posted_entry now d b c p s e)
                   else None)))
  /\ ~ In (w_id (posted_entry now d b c p s e)) (map w_id (waitlist d))
  /\ waitlist (fst (delete_waitlists (w_id (posted_entry now d b c p s e))
                      (fst (post_waitlist now b d))))
     = waitlist d.
Proof.
  intros Hc Hp Hs He Hst. apply check_status_ok in Hst.
  assert (Fresh : forall x, In x (waitlist d) ->
                    w_id x <> w_id (posted_entry now d b c p s e)).
  { intros x Hx; simpl. apply next_id_fresh, in_map, Hx. }
  assert (E : post_waitlist now b d
              = (set_waitlist d (waitlist d ++ [posted_entry now d b c p s e])
                   (w_id (posted_entry now d b c p s e)),
                 respond 201
                   (BWaitlist (if joins d c p
                               then Some (posted_entry now d b c p s e)
                               else None)))).
  { unfold post_waitlist, insert_waitlist, select_waitlist.
    rewrite Hc, Hp, Hs, He; run_handler. rewrite Hst; simpl.
    change (joins _ c p) with (joins d c p).
    destruct (joins d c p) eqn:J.
    - rewrite find_app_last; auto.
      + intros y Hy. apply andb_false_iff; left.
        apply Z.eqb_neq, (Fresh y Hy).
      + simpl. rewrite Z.eqb_refl. exact J.
    - rewrite find_app_last_none; auto.
      + intros y Hy. apply andb_false_iff; left.
        apply Z.eqb_neq, (Fresh y Hy).
      + simpl. rewrite Z.eqb_refl. exact J. }
  split; [exact E|split].
  - intros Hin. apply in_map_iff in Hin as (x & Hx & Hin).
    apply (Fresh x Hin Hx).
  - rewrite E; simpl. apply filter_drops_last_only; auto.
Qed.

Lemma post_waitlist_inserts_unchecked_witness :
  status_allowed waitlist_statuses
    (or_text (wb_status (join_waitlist 7 9 540 600)) "waiting")
  /\ post_waitlist 3 (join_waitlist 7 9 540 600) one_booking
     = (set_waitlist one_booking
          (waitlist one_booking ++
             [posted_entry 3 one_booking (join_waitlist 7 9 540 600) 7 9
                (TAt 540) (TAt 600)])
          (w_id (posted_entry 3 one_booking (join_waitlist 7 9 540 600) 7 9
                   (TAt 540) (TAt 600))),
        respond 201
          (BWaitlist
             (if joins one_booking 7 9
              then Some (posted_entry 3 one_booking
                           (join_waitlist 7 9 540 600) 7 9 (TAt 540) (TAt 600))
              else None)))
  /\ ~ In (w_id (posted_entry 3 one_booking (join_waitlist 7 9 540 600) 7 9
                   (TAt 540) (TAt 600)))
          (map w_id (waitlist one_booking))
  /\ waitlist
       (fst (delete_waitlists
               (w_id (posted_entry 3 one_booking (join_waitlist 7 9 540 600)
                        7 9 (TAt 540) (TAt 600)))
               (fst (post_waitlist 3 (join_waitlist 7 9 540 600) one_booking))))
     = waitlist one_booking.
Proof.
  assert (S : status_allowed waitlist_statuses
                (or_text (wb_status (join_waitlist 7 9 540 600)) "waiting")).
  { right; exists "waiting"; split; [reflexivity|simpl; auto]. }
  split; [exact S|].
  exact (post_waitlist_inserts_unchecked 3 (join_waitlist 7 9 540 600)
           one_booking 7 9 (TAt 540) (TAt 600)
           eq_refl eq_refl eq_refl eq_refl S).
Defined.

(** X10: POST /api/waitlist without a court, a player, a start or an end,
    or with a status that is not one of the five of the table, is answered
    500 and writes nothing. *)
Theorem post_waitlist_rejects now b d :
  wb_court_id b = None \/ wb_player_id b = None
  \/ wb_start_time b = None \/ wb_end_time b = None
  \/ ~ status_allowed waitlist_statuses (or_text (wb_status b) "waiting") ->
  fst (post_waitlist now b d) = d /\ code (snd (post_waitlist now b d)) = 500.
Proof.
  intros H. unfold post_waitlist, insert_waitlist; run_handler.
  destruct (wb_court_id b); [|auto].
  destruct (wb_player_id b); [|auto].
  destruct (wb_start_time b); [|auto].
  destruct (wb_end_time b); [|auto]. simpl.
  destruct (check_status _ _) as [[]|err] eqn:Cs; simpl; auto.
  apply check_status_ok in Cs.
  destruct H as [H|[H|[H|[H|H]]]]; try discriminate; contradiction.
Qed.

Lemma post_waitlist_rejects_witness :
  (wb_court_id {| wb_court_id := Some 1; wb_player_id := None;
                  wb_start_time := Some (TAt 540);
                  wb_end_time := Some (TAt 600); wb_priority := None;
                  wb_status := None |} = None
   \/ wb_player_id {| wb_court_id := Some 1; wb_player_id := None;
                      wb_start_time := Some (TAt 540);
                      wb_end_time := Some (TAt 600); wb_priority := None;
                      wb_status := None |} = None
   \/ wb_start_time {| wb_court_id := Some 1; wb_player_id := None;
                       wb_start_time := Some (TAt 540);
                       wb_end_time := Some (TAt 600); wb_priority := None;
                       wb_status := None |} = None
   \/ wb_end_time {| wb_court_id := Some 1; wb_player_id := None;
                     wb_start_time := Some (TAt 540);
                     wb_end_time := Some (TAt 600); wb_priority := None;
                     wb_status := None |} = None
   \/ ~ status_allowed waitlist_statuses
          (or_text (wb_status {| wb_court_id := Some 1; wb_player_id := None;
                                 wb_start_time := Some (TAt 540);
                                 wb_end_time := Some (TAt 600);
                                 wb_priority := None; wb_status := None |})
                   "waiting"))
  /\ fst (post_waitlist 3
            {| wb_court_id := Some 1; wb_player_id := None;
               wb_start_time := Some (TAt 540); wb_end_time := Some (TAt 600);
               wb_priority := None; wb_status := None |} one_booking)
     = one_booking.
Proof.
  split; [right; left; reflexivity|].
  apply (post_waitlist_rejects 3
           {| wb_court_id := Some 1; wb_player_id := None;
              wb_start_time := Some (TAt 540); wb_end_time := Some (TAt 600);
              wb_priority := None; wb_status := None |} one_booking).
  right; left; reflexivity.
Defined.

Lemma filter_twice {A} (p : A -> bool) l :
  filter p (filter p l) = filter p l.
Proof.
  induction l as [|x l IH]; simpl; auto.
  destruct (p x) eqn:E; simpl; rewrite ?E, IH; reflexivity.
Qed.

(** X11: both deletions are idempotent and always answer 200: after one
    deletion no row of the table has the id, and a second deletion of the
    same id changes nothing. *)
Theorem deletions_are_idempotent id d :
  fst (delete_reservations id (fst (delete_reservations id d)))
  = fst (delete_reservations id d)
  /\ fst (delete_waitlists id (fst (delete_waitlists id d)))
     = fst (delete_waitlists id d)
  /\ ~ In id (map r_id (reservations (fst (delete_reservations id d))))
  /\ ~ In id (map w_id (waitlist (fst (delete_waitlists id d))))
  /\ snd (delete_reservations id d) = respond 200 BOk
  /\ snd (delete_waitlists id d) = respond 200 BOk.
Proof.
  unfold delete_reservations, delete_waitlists, delete_reservation,
    delete_waitlist, set_reservations, set_waitlist; run_handler.
  rewrite !filter_twice. repeat split; auto.
  - intros H; apply in_map_iff in H as (r & Hr & H).
    apply filter_In in H as [_ H]. apply negb_true_iff, Z.eqb_neq in H; auto.
  - intros H; apply in_map_iff in H as (w & Hw & H).
    apply filter_In in H as [_ H]. apply negb_true_iff, Z.eqb_neq in H; auto.
Qed.

(** X12: the waitlist update with a body whose keys are columns of the
    waitlist never removes or changes a reservation that was there, and
    never removes or changes a waitlist entry with another id, whichever
    way it ends. *)
Theorem patch_waitlist_spares_others now id f d r w :
  wf_other f = [] ->
  In r (reservations d) -> In w (waitlist d) -> w_id w <> id ->
  In r (reservations (fst (patch_waitlist now id f d)))
  /\ In w (waitlist (fst (patch_waitlist now id f d))).
Proof.
  intros _ Hr Hw Hid.
  assert (K : forall d1 res, update_waitlist id f d = (d1, res) ->
                reservations d1 = reservations d /\ In w (waitlist d1)).
  { intros d1 res U.
    split; [apply (update_waitlist_frame _ _ _ _ _ U)|].
    destruct (update_waitlist_cases id f d) as [[e H]|[H|H]];
      rewrite H in U; injection U as <- _; simpl; auto.
    apply in_map_iff; exists w; split; auto.
    apply Z.eqb_neq in Hid; rewrite Hid; reflexivity. }
  destruct (patch_waitlist_cases now id f d)
    as [(e & U & E)|(d1 & U & [(_ & E)|(u & _ & [(_ & E)|(_ & E)])])];
    rewrite E; simpl; destruct (K _ _ U) as [R Hw1]; split;
    try assumption; try (rewrite R; assumption).
  - apply in_or_app; left; rewrite R; assumption.
  - apply filter_In; split; auto.
    apply negb_true_iff, Z.eqb_neq; assumption.
Qed.

Lemma patch_waitlist_spares_others_witness :
  wf_other (priority_only 3) = []
  /\ In (booking 1 1 540 600 "booked") (reservations
        (sample_db [booking 1 1 540 600 "booked"]
           [entry 1 2 600 660 "waiting"; entry 2 1 700 760 "waiting"]))
  /\ In (entry 2 1 700 760 "waiting")
        (waitlist
           (fst (patch_waitlist 9 1 (priority_only 3)
                   (sample_db [booking 1 1 540 600 "booked"]
                      [entry 1 2 600 660 "waiting";
                       entry 2 1 700 760 "waiting"])))).
Proof.
  assert (R : In (booking 1 1 540 600 "booked") (reservations
        (sample_db [booking 1 1 540 600 "booked"]
           [entry 1 2 600 660 "waiting"; entry 2 1 700 760 "waiting"])))
    by (simpl; auto).
  split; [reflexivity|split; [exact R|]].
  apply (patch_waitlist_spares_others 9 1 (priority_only 3)
           (sample_db [booking 1 1 540 600 "booked"]
              [entry 1 2 600 660 "waiting"; entry 2 1 700 760 "waiting"])
           (booking 1 1 540 600 "booked") (entry 2 1 700 760 "waiting")
           eq_refl R).
  - simpl; auto.
  - simpl; lia.
Defined.

(** ** The constraints of the schema along any history *)

Lemma serve_keeps (P : db -> Prop) :
  (forall q d, P d -> P (fst (handle q d))) ->
  forall qs d, P d -> P (serve qs d).
Proof.
  intros H qs; induction qs as [|q qs IH]; simpl; auto.
Qed.

Lemma update_reservations_written id f d d1 :
  update_reservations id f d = (d1, Ok tt) ->
  d1 = d
  \/ (check_set (rf_id f) (rf_court_id f) (rf_player_id f) (rf_start_time f)
        (rf_end_time f) (rf_status f) reservation_statuses = Ok tt
      /\ check_unique id (rf_id f) (map r_id (reservations d)) = Ok tt
      /\ d1 = set_reservations d
                (map (fun r => if r_id r =? id
                               then set_reservation_fields f r else r)
                     (reservations d))
                (seq_reservations d)).
Proof.
  unfold update_reservations.
  destruct (rf_no_keys f); [discriminate|].
  destruct (rf_other f); [|discriminate].
  run_handler.
  destruct (existsb _ (reservations d));
    [|intros E; injection E as <-; auto].
  destruct (check_set _ _ _ _ _ _ _) as [[]|e]; [|discriminate].
  destruct (check_unique _ _ _) as [[]|e]; [|discriminate].
  simpl; intros E; injection E as <-; auto.
Qed.

Lemma update_waitlist_written id f d d1 :
  update_waitlist id f d = (d1, Ok tt) ->
  d1 = d
  \/ (check_set (wf_id f) (wf_court_id f) (wf_player_id f) (wf_start_time f)
        (wf_end_time f) (wf_status f) waitlist_statuses = Ok tt
      /\ check_unique id (wf_id f) (map w_id (waitlist d)) = Ok tt
      /\ d1 = set_waitlist d
                (map (fun w => if w_id w =? id
                               then set_waitlist_fields f w else w)
                     (waitlist d))
                (seq_waitlist d)).
Proof.
  unfold update_waitlist.
  destruct (wf_no_keys f); [discriminate|].
  destruct (wf_other f); [|discriminate].
  run_handler.
  destruct (existsb _ (waitlist d)); [|intros E; injection E as <-; auto].
  destruct (check_set _ _ _ _ _ _ _) as [[]|e]; [|discriminate].
  destruct (check_unique _ _ _) as [[]|e]; [|discriminate].
  simpl; intros E; injection E as <-; auto.
Qed.

Lemma patch_reservations_written id f d :
  fst (patch_reservations id f d) = d
  \/ (check_set (rf_id f) (rf_court_id f) (rf_player_id f) (rf_start_time f)
        (rf_end_time f) (rf_status f) reservation_statuses = Ok tt
      /\ check_unique id (rf_id f) (map r_id (reservations d)) = Ok tt
      /\ fst (patch_reservations id f d)
         = set_reservations d
             (map (fun r => if r_id r =? id
                            then set_reservation_fields f r else r)
                  (reservations d))
             (seq_reservations d)).
Proof.
  unfold patch_reservations, select_reservation; run_handler.
  destruct (update_reservations id f d) as [d1 [[]|e]] eqn:U; simpl.
  - apply update_reservations_written in U as [->|(H1 & H2 & ->)]; auto.
  - destruct (update_reservations_cases id f d) as [[e' H]|[H|H]];
      rewrite H in U; try discriminate. injection U as <- _; auto.
Qed.

Lemma check_set_status id c p s e st allowed v :
  check_set id c p s e st allowed = Ok tt -> st = Some v ->
  status_allowed allowed v.
Proof.
  intros H Hst. apply check_set_ok in H as (_ & _ & _ & _ & _ & H).
  apply check_status_ok, (H v Hst).
Qed.

Lemma check_set_id id c p s e st allowed :
  check_set id c p s e st allowed = Ok tt -> id <> Some None.
Proof.
  intros H ->. apply check_set_ok in H as (H & _). discriminate.
Qed.

(** What an INSERT into the waitlist leaves. *)
Lemma insert_waitlist_cases now c p s e pr st d :
  (exists err, insert_waitlist now c p s e pr st d = (d, Threw err))
  \/ exists w, insert_waitlist now c p s e pr st d
               = (set_waitlist d (waitlist d ++ [w]) (w_id w), Ok (w_id w))
               /\ w_id w = next_id (seq_waitlist d) (map w_id (waitlist d))
               /\ w_status w = st /\ status_allowed waitlist_statuses st.
Proof.
  unfold insert_waitlist; run_handler.
  destruct c as [z|]; [|left; eexists; reflexivity].
  destruct p as [z0|]; [|left; eexists; reflexivity].
  destruct s as [t|]; [|left; eexists; reflexivity].
  destruct e as [t0|]; [|left; eexists; reflexivity]. simpl.
  destruct (check_status st waitlist_statuses) as [[]|err] eqn:Cs;
    [|left; eexists; reflexivity].
  right.
  exists {| w_id := next_id (seq_waitlist d) (map w_id (waitlist d));
            w_court_id := z; w_player_id := z0; w_start_time := t;
            w_end_time := t0; w_priority := pr; w_status := st;
            w_created_at := Some (TAt now) |}.
  split; [reflexivity|]. simpl; repeat split.
  apply check_status_ok; assumption.
Qed.

Lemma post_reservations_waitlist now b d :
  fst (post_reservations now b d) = d
  \/ exists w, fst (post_reservations now b d)
               = set_waitlist d (waitlist d ++ [w]) (w_id w)
               /\ w_id w = next_id (seq_waitlist d) (map w_id (waitlist d))
               /\ status_allowed waitlist_statuses (w_status w).
Proof.
  destruct (conflict_query (reservations d) (b_court_id b) (b_start_time b)
                           (b_end_time b)) as [|x l] eqn:E.
  - rewrite post_reservations_no_conflict; auto.
  - unfold post_reservations; run_handler. rewrite E; simpl.
    destruct (insert_waitlist_cases now (b_court_id b) (b_player_id b)
                (b_start_time b) (b_end_time b) (Some 0) (Some "waiting") d)
      as [(err & H)|(w & H & Hid & Hs & Ha)]; rewrite H; simpl; auto.
    right; exists w; rewrite Hs; auto.
Qed.

Lemma post_waitlist_waitlist now b d :
  fst (post_waitlist now b d) = d
  \/ exists w, fst (post_waitlist now b d)
               = set_waitlist d (waitlist d ++ [w]) (w_id w)
               /\ w_id w = next_id (seq_waitlist d) (map w_id (waitlist d))
               /\ status_allowed waitlist_statuses (w_status w).
Proof.
  unfold post_waitlist, select_waitlist; run_handler.
  destruct (insert_waitlist_cases now (wb_court_id b) (wb_player_id b)
              (wb_start_time b) (wb_end_time b) (or_int (wb_priority b) 0)
              (or_text (wb_status b) "waiting") d)
    as [(err & H)|(w & H & Hid & Hs & Ha)]; rewrite H; simpl; auto.
  right; exists w; rewrite Hs; auto.
Qed.

Lemma booked_allowed : status_allowed reservation_statuses (Some "booked").
Proof. right; exists "booked"; simpl; auto. Qed.

Lemma handle_keeps_statuses_valid q d :
  statuses_valid d -> statuses_valid (fst (handle q d)).
Proof.
  unfold statuses_valid; intros [HR HW].
  destruct q as [now b|id f|id|now b|now id f|id]; simpl handle.
  - destruct (post_reservations_waitlist now b d) as [->|(w & -> & _ & Hs)];
      simpl; auto.
    split; auto. apply Forall_app; auto.
  - destruct (patch_reservations_written id f d) as [->|(Cs & _ & ->)];
      simpl; auto.
    split; auto. rewrite Forall_forall in *; intros x Hx.
    apply in_map_iff in Hx as (r & <- & Hr).
    destruct (r_id r =? id); auto. simpl.
    destruct (rf_status f) as [v|] eqn:S; simpl; auto.
    apply (check_set_status _ _ _ _ _ _ _ v Cs eq_refl).
  - rewrite delete_reservations_spec; simpl. split; auto.
    rewrite Forall_forall in *; intros x Hx.
    apply filter_In in Hx as [Hx _]; auto.
  - destruct (post_waitlist_waitlist now b d) as [->|(w & -> & _ & Hs)];
      simpl; auto.
    split; auto. apply Forall_app; auto.
  - assert (K : forall d1, update_waitlist id f d = (d1, Ok tt) ->
                  Forall (fun r => status_allowed reservation_statuses
                                     (r_status r)) (reservations d1)
                  /\ Forall (fun w => status_allowed waitlist_statuses
                                        (w_status w)) (waitlist d1)).
    { intros d1 U.
      apply update_waitlist_written in U as [->|(Cs & _ & ->)]; simpl; auto.
      split; auto. rewrite Forall_forall in *; intros x Hx.
      apply in_map_iff in Hx as (w & <- & Hw).
      destruct (w_id w =? id); auto. simpl.
      destruct (wf_status f) as [v|] eqn:S; simpl; auto.
      apply (check_set_status _ _ _ _ _ _ _ v Cs eq_refl). }
    destruct (patch_waitlist_cases now id f d)
      as [(e & _ & E)|(d1 & U & [(_ & E)|(u & _ & [(_ & E)|(_ & E)])])];
      rewrite E; simpl; auto; destruct (K d1 U) as [HR1 HW1]; auto.
    split.
    + apply Forall_app; split; auto. constructor; auto. apply booked_allowed.
    + rewrite Forall_forall in *; intros x Hx.
      apply filter_In in Hx as [Hx _]; auto.
  - split; auto. simpl.
    rewrite Forall_forall in *; intros x Hx.
    apply filter_In in Hx as [Hx _]; auto.
Qed.

(** X13: every status stored in the two tables is NULL or one of the
    texts of its CHECK, and stays so along any sequence of the six
    writing requests, whatever their bodies. *)
Theorem serve_keeps_statuses_valid qs d :
  statuses_valid d -> statuses_valid (serve qs d).
Proof.
  apply (serve_keeps statuses_valid). intros q d0.
  apply handle_keeps_statuses_valid.
Qed.

Lemma serve_keeps_statuses_valid_witness :
  statuses_valid booked_and_waiting
  /\ statuses_valid
       (serve [PatchReservation 1 (status_only "bogus");
               PatchReservation 1 (status_only "completed");
               PostWaitlist 3 (join_waitlist 1 2 540 600)]
              booked_and_waiting).
Proof.
  assert (S : statuses_valid booked_and_waiting).
  { split; simpl;
      repeat (apply Forall_cons;
              [right; eexists; split; [reflexivity|simpl; tauto]|]);
      apply Forall_nil. }
  split; [exact S|].
  exact (serve_keeps_statuses_valid
           [PatchReservation 1 (status_only "bogus");
            PatchReservation 1 (status_only "completed");
            PostWaitlist 3 (join_waitlist 1 2 540 600)]
           booked_and_waiting S).
Defined.

Lemma NoDup_snoc (l : list Z) x : NoDup l -> ~ In x l -> NoDup (l ++ [x]).
Proof.
  induction 1 as [|a l Ha Hl IH]; simpl; intros Hx.
  - constructor; auto. constructor.
  - constructor.
    + intros H; apply in_app_or in H as [H|[H|[]]]; auto.
    + apply IH; auto.
Qed.

Lemma NoDup_map_filter {A} (key : A -> Z) p l :
  NoDup (map key l) -> NoDup (map key (filter p l)).
Proof.
  induction l as [|x l IH]; simpl; auto.
  intros H; inversion H as [|? ? Hx Hl]; subst.
  destruct (p x); simpl; auto. constructor; auto.
  intros Hin; apply Hx. apply in_map_iff in Hin as (y & Hy & Hin).
  apply filter_In in Hin as [Hin _]. rewrite <- Hy; apply in_map; assumption.
Qed.

(** Rewriting the rows that have the key [id] keeps the keys distinct,
    if the rewritten rows keep their key or all take a key that no row
    had. *)
Lemma NoDup_map_update {A} (key : A -> Z) (h : A -> A) id l :
  NoDup (map key l) ->
  (forall x, key x = id -> key (h x) = id)
  \/ (exists v, (forall x, key x = id -> key (h x) = v)
                /\ ~ In v (map key l)) ->
  NoDup (map key (map (fun x => if key x =? id then h x else x) l)).
Proof.
  intros N [K|(v & K & Hv)].
  - replace (map key (map (fun x => if key x =? id then h x else x) l))
      with (map key l); auto.
    rewrite map_map; apply map_ext; intros x.
    destruct (Z.eqb_spec (key x) id) as [E|E]; auto.
    rewrite (K x E); auto.
  - set (g := fun x => if key x =? id then h x else x).
    assert (G : forall y, (key y = id /\ key (g y) = v)
                          \/ (key y <> id /\ g y = y)).
    { intros y; unfold g. destruct (Z.eqb_spec (key y) id); auto. }
    induction l as [|x l IH]; simpl; [constructor|].
    simpl in N, Hv. inversion N as [|? ? Hx Hl]; subst.
    constructor; [|apply IH; auto].
    intros Hin. apply in_map_iff in Hin as (z & Hz & Hin).
    apply in_map_iff in Hin as (y & <- & Hy).
    destruct (G x) as [[Ex Gx]|[Ex Gx]], (G y) as [[Ey Gy]|[Ey Gy]].
    + apply Hx. rewrite Ex, <- Ey. apply in_map; assumption.
    + apply Hv; right. rewrite <- Gx, <- Hz, Gy. apply in_map; assumption.
    + apply Hv; left. rewrite <- Gy, Hz, Gx; reflexivity.
    + apply Hx. rewrite Gx, Gy in Hz. rewrite <- Hz. apply in_map; assumption.
Qed.

Lemma check_unique_keys {A} (key : A -> Z) (h : A -> A) id new_id l :
  new_id <> Some None ->
  check_unique id new_id (map key l) = Ok tt ->
  (forall x, key (h x) = upd_not_null new_id (key x)) ->
  (forall x, key x = id -> key (h x) = id)
  \/ (exists v, (forall x, key x = id -> key (h x) = v)
                /\ ~ In v (map key l)).
Proof.
  unfold check_unique; intros Hn Hu Hk.
  destruct new_id as [[v|]|]; [|contradiction|].
  - destruct (Z.eqb_spec v id) as [E|E]; simpl in Hu.
    + left; intros x Hx. rewrite Hk; simpl; assumption.
    + right; exists v; split; [intros x _; rewrite Hk; reflexivity|].
      destruct (existsb (Z.eqb v) (map key l)) eqn:Ex; [discriminate|].
      intros Hin. assert (T : existsb (Z.eqb v) (map key l) = true)
        by (apply existsb_exists; exists v; split; auto; apply Z.eqb_refl).
      rewrite T in Ex; discriminate.
  - left; intros x Hx. rewrite Hk; simpl; assumption.
Qed.

Lemma handle_keeps_ids_unique q d :
  ids_unique d -> ids_unique (fst (handle q d)).
Proof.
  unfold ids_unique; intros [HR HW].
  destruct q as [now b|id f|id|now b|now id f|id]; simpl handle.
  - destruct (post_reservations_waitlist now b d) as [->|(w & -> & Hid & _)];
      simpl; auto.
    split; auto. rewrite map_app; simpl. apply NoDup_snoc; auto.
    rewrite Hid. intros Hin. apply (next_id_fresh _ _ _ Hin eq_refl).
  - destruct (patch_reservations_written id f d) as [->|(Cs & Cu & ->)];
      simpl; auto.
    split; auto. apply NoDup_map_update; auto.
    apply (check_unique_keys r_id (set_reservation_fields f) id (rf_id f));
      auto.
    apply (check_set_id _ _ _ _ _ _ _ Cs).
  - rewrite delete_reservations_spec; simpl. split; auto.
    apply NoDup_map_filter; assumption.
  - destruct (post_waitlist_waitlist now b d) as [->|(w & -> & Hid & _)];
      simpl; auto.
    split; auto. rewrite map_app; simpl. apply NoDup_snoc; auto.
    rewrite Hid. intros Hin. apply (next_id_fresh _ _ _ Hin eq_refl).
  - assert (K : forall d1, update_waitlist id f d = (d1, Ok tt) ->
                  NoDup (map r_id (reservations d1))
                  /\ NoDup (map w_id (waitlist d1))).
    { intros d1 U.
      apply update_waitlist_written in U as [->|(Cs & Cu & ->)]; simpl; auto.
      split; auto. apply NoDup_map_update; auto.
      apply (check_unique_keys w_id (set_waitlist_fields f) id (wf_id f));
        auto.
      apply (check_set_id _ _ _ _ _ _ _ Cs). }
    destruct (patch_waitlist_cases now id f d)
      as [(e & _ & E)|(d1 & U & [(_ & E)|(u & _ & [(_ & E)|(_ & E)])])];
      rewrite E; simpl; auto; destruct (K d1 U) as [HR1 HW1]; auto.
    split.
    + rewrite map_app; simpl. apply NoDup_snoc; auto.
      intros Hin. apply (next_id_fresh _ _ _ Hin eq_refl).
    + apply NoDup_map_filter; assumption.
  - split; auto. simpl. apply NoDup_map_filter; assumption.
Qed.

(** X14: the ids of each table stay pairwise distinct along any sequence
    of the six writing requests: an INSERT takes an id above every id of
    the table, and an UPDATE that would give a row the id of another row
    is refused. *)
Theorem serve_keeps_ids_unique qs d :
  ids_unique d -> ids_unique (serve qs d).
Proof.
  apply (serve_keeps ids_unique). intros q d0.
  apply handle_keeps_ids_unique.
Qed.

Lemma serve_keeps_ids_unique_witness :
  ids_unique back_to_back
  /\ ids_unique
       (serve [PatchReservation 2
                 {| rf_id := Some (Some 1); rf_court_id := None;
                    rf_player_id := None; rf_start_time := None;
                    rf_end_time := None; rf_status := None;
                    rf_price_cents := None; rf_created_at := None;
                    rf_other := [] |};
               PostWaitlist 3 (join_waitlist 1 2 540 600);
               PatchWaitlist 9 1 (priority_only 3)]
              back_to_back).
Proof.
  assert (U : ids_unique back_to_back).
  { split; simpl; repeat constructor; simpl; intuition lia. }
  split; [exact U|].
  exact (serve_keeps_ids_unique _ back_to_back U).
Defined.

(** X15: the database that [init()] seeds has no double booking, and in
    every state reached from it by the six writing requests the ids of
    each table are distinct and every status passes its CHECK. *)
Theorem init_reachable_invariants day now1 now2 qs :
  no_double_booking (init day now1 now2)
  /\ ids_unique (serve qs (init day now1 now2))
  /\ statuses_valid (serve qs (init day now1 now2)).
Proof.
  split; [apply no_double_bookingb_spec; reflexivity|split].
  - apply (serve_keeps ids_unique);
      [intros q d0; apply handle_keeps_ids_unique|].
    split; simpl; repeat constructor; simpl; intuition lia.
  - apply (serve_keeps statuses_valid);
      [intros q d0; apply handle_keeps_statuses_valid|].
    split; simpl;
      repeat (apply Forall_cons;
              [right; eexists; split; [reflexivity|simpl; tauto]|]);
      apply Forall_nil.
Qed.

(** ** Deleting a court or a player *)

Lemma patch_waitlist_not_found now id f d :
  (forall d1 u, update_waitlist id f d = (d1, Ok tt) ->
                In u (waitlist d1) -> w_id u = id ->
                joins d1 (w_court_id u) (w_player_id u) = false) ->
  code (snd (patch_waitlist now id f d)) = 500
  /\ reservations (fst (patch_waitlist now id f d)) = reservations d.
Proof.
  intros H.
  destruct (patch_waitlist_cases now id f d)
    as [(e & _ & E)|(d1 & U & [(_ & E)|(u & S & _)])].
  - rewrite E; auto.
  - rewrite E; simpl; split; auto.
    apply (update_waitlist_frame _ _ _ _ _ U).
  - exfalso. rewrite select_waitlist_eq in S. injection S as S.
    apply find_some in S as [Hin S]. apply andb_true_iff in S as [Hid J].
    apply Z.eqb_eq in Hid. rewrite (H d1 u U Hin Hid) in J; discriminate.
Qed.

Lemma updated_entry_origin id f d d1 u :
  update_waitlist id f d = (d1, Ok tt) -> In u (waitlist d1) -> w_id u = id ->
  exists w, In w (waitlist d) /\ w_id w = id
            /\ (wf_court_id f = None -> w_court_id u = w_court_id w)
            /\ (wf_player_id f = None -> w_player_id u = w_player_id w).
Proof.
  intros U Hin Hid.
  apply update_waitlist_written in U as [->|(_ & _ & ->)].
  - exists u; auto.
  - simpl in Hin. apply in_map_iff in Hin as (w & Hw & Hin).
    exists w; split; auto.
    destruct (Z.eqb_spec (w_id w) id) as [E|E]; subst u.
    + split; auto. split; intros H; simpl; rewrite H; reflexivity.
    + auto.
Qed.

Lemma existsb_filter_negb {A} (p : A -> bool) l :
  existsb p (filter (fun x => negb (p x)) l) = false.
Proof.
  induction l as [|x l IH]; simpl; auto.
  destruct (p x) eqn:E; simpl; auto. rewrite E; auto.
Qed.

(** X16: deleting a court deletes none of its reservations and none of its
    waitlist entries. Afterwards an update of an entry of that court whose
    keys are columns of the waitlist other than court_id is answered 500
    and turns nothing into a reservation, whatever the reservations are. *)
Theorem entry_of_deleted_court_is_stuck now c id f d :
  wf_other f = [] -> wf_court_id f = None ->
  (forall w, In w (waitlist d) -> w_id w = id -> w_court_id w = c) ->
  reservations (fst (delete_courts c d)) = reservations d
  /\ waitlist (fst (delete_courts c d)) = waitlist d
  /\ code (snd (patch_waitlist now id f (fst (delete_courts c d)))) = 500
  /\ reservations (fst (patch_waitlist now id f (fst (delete_courts c d))))
     = reservations d.
Proof.
  intros _ Hf Hc. split; [reflexivity|split; [reflexivity|]].
  apply (patch_waitlist_not_found now id f (fst (delete_courts c d))).
  intros d1 u U Hin Hid.
  destruct (updated_entry_origin _ _ _ _ _ U Hin Hid)
    as (w & Hw & Hwid & Hcourt & _).
  rewrite (Hcourt Hf), (Hc w Hw Hwid).
  apply update_waitlist_frame in U as (C & _).
  unfold joins; rewrite C; simpl.
  rewrite (existsb_filter_negb (fun x => c_id x =? c)); reflexivity.
Qed.

Lemma entry_of_deleted_court_is_stuck_witness :
  (forall w, In w (waitlist one_waiting) -> w_id w = 1 -> w_court_id w = 1)
  /\ reservations (fst (delete_courts 1 one_waiting))
     = reservations one_waiting
  /\ waitlist (fst (delete_courts 1 one_waiting)) = waitlist one_waiting
  /\ code (snd (patch_waitlist 9 1 (priority_only 3)
                  (fst (delete_courts 1 one_waiting)))) = 500
  /\ reservations (fst (patch_waitlist 9 1 (priority_only 3)
                          (fst (delete_courts 1 one_waiting))))
     = reservations one_waiting.
Proof.
  assert (H : forall w, In w (waitlist one_waiting) -> w_id w = 1 ->
                        w_court_id w = 1).
  { intros w [<-|[]] _; reflexivity. }
  split; [exact H|].
  exact (entry_of_deleted_court_is_stuck 9 1 1 (priority_only 3) one_waiting
           eq_refl eq_refl H).
Defined.

(** X17: the same for a deleted player: his reservations and waitlist
    entries stay, and an update of one of his entries whose keys are
    columns of the waitlist other than player_id is answered 500 and
    turns nothing into a reservation. *)
Theorem entry_of_deleted_player_is_stuck now p id f d :
  wf_other f = [] -> wf_player_id f = None ->
  (forall w, In w (waitlist d) -> w_id w = id -> w_player_id w = p) ->
  reservations (fst (delete_players p d)) = reservations d
  /\ waitlist (fst (delete_players p d)) = waitlist d
  /\ code (snd (patch_waitlist now id f (fst (delete_players p d)))) = 500
  /\ reservations (fst (patch_waitlist now id f (fst (delete_players p d))))
     = reservations d.
Proof.
  intros _ Hf Hp. split; [reflexivity|split; [reflexivity|]].
  apply (patch_waitlist_not_found now id f (fst (delete_players p d))).
  intros d1 u U Hin Hid.
  destruct (updated_entry_origin _ _ _ _ _ U Hin Hid)
    as (w & Hw & Hwid & _ & Hplayer).
  rewrite (Hplayer Hf), (Hp w Hw Hwid).
  apply update_waitlist_frame in U as (_ & P & _).
  unfold joins; rewrite P; simpl.
  rewrite (existsb_filter_negb (fun x => p_id x =? p)).
  apply andb_false_r.
Qed.

Lemma entry_of_deleted_player_is_stuck_witness :
  (forall w, In w (waitlist one_waiting) -> w_id w = 1 -> w_player_id w = 2)
  /\ reservations (fst (delete_players 2 one_waiting))
     = reservations one_waiting
  /\ waitlist (fst (delete_players 2 one_waiting)) = waitlist one_waiting
  /\ code (snd (patch_waitlist 9 1 (priority_only 3)
                  (fst (delete_players 2 one_waiting)))) = 500
  /\ reservations (fst (patch_waitlist 9 1 (priority_only 3)
                          (fst (delete_players 2 one_waiting))))
     = reservations one_waiting.
Proof.
  assert (H : forall w, In w (waitlist one_waiting) -> w_id w = 1 ->
                        w_player_id w = 2).
  { intros w [<-|[]] _; reflexivity. }
  split; [exact H|].
  exact (entry_of_deleted_player_is_stuck 9 2 1 (priority_only 3) one_waiting
           eq_refl eq_refl H).
Defined.

(** ** The recheck works on the updated entry *)

Lemma find_updated_row id (g : waitlist_entry -> waitlist_entry)
    (J : waitlist_entry -> bool) l w :
  (forall x, w_id (g x) = w_id x) ->
  NoDup (map w_id l) -> In w l -> w_id w = id ->
  find (fun x => (w_id x =? id) && J x) (map g l)
  = if J (g w) then Some (g w) else None.
Proof.
  intros G N Hin Hid. induction l as [|x l IH]; [contradiction|].
  simpl in N; inversion N as [|? ? Hx Hl]; subst. simpl.
  destruct Hin as [->|Hin].
  - rewrite G, Z.eqb_refl; simpl. destruct (J (g w)); auto.
    apply find_none_of_existsb. apply existsb_id_absent.
    intros y Hy E. apply in_map_iff in Hy as (z & <- & Hz).
    rewrite G in E. apply Hx. rewrite <- E. apply in_map; assumption.
  - replace (w_id (g x) =? w_id w) with false; simpl; auto.
    symmetry; apply Z.eqb_neq. rewrite G. intros E.
    apply Hx. rewrite E. apply in_map; assumption.
Qed.

(** X18: on a waitlist whose ids are distinct, an update that passes the
    constraints and leaves the id alone is rechecked with the values it
    has just written: if the court and player of the updated entry exist,
    the entry is turned into a reservation when the conflict query on its
    new court and interval is empty, and otherwise comes back, updated,
    with 200. *)
Theorem patch_waitlist_rechecks_new_values now id f d w :
  NoDup (map w_id (waitlist d)) -> In w (waitlist d) -> w_id w = id ->
  wf_no_keys f = false -> wf_other f = [] -> wf_id f = None ->
  check_set (wf_id f) (wf_court_id f) (wf_player_id f) (wf_start_time f)
            (wf_end_time f) (wf_status f) waitlist_statuses = Ok tt ->
  joins d (w_court_id (set_waitlist_fields f w))
          (w_player_id (set_waitlist_fields f w)) = true ->
  patch_waitlist now id f d
  = match conflict_query (reservations d)
            (Some (w_court_id (set_waitlist_fields f w)))
            (Some (w_start_time (set_waitlist_fields f w)))
            (Some (w_end_time (set_waitlist_fields f w))) with
    | [] =>
        (promoted_db now id
           (set_waitlist d
              (map (fun x => if w_id x =? id
                             then set_waitlist_fields f x else x)
                   (waitlist d))
              (seq_waitlist d))
           (set_waitlist_fields f w),
         respond 201
           (BReservation
              (Some (promoted_reservation now d (set_waitlist_fields f w)))))
    | _ :: _ =>
        (set_waitlist d
           (map (fun x => if w_id x =? id then set_waitlist_fields f x else x)
                (waitlist d))
           (seq_waitlist d),
         respond 200 (BWaitlist (Some (set_waitlist_fields f w))))
    end.
Proof.
  intros N Hin Hid Hk Ho Hfid Cs J.
  set (g := fun x => if w_id x =? id then set_waitlist_fields f x else x).
  set (d1 := set_waitlist d (map g (waitlist d)) (seq_waitlist d)).
  assert (U : update_waitlist id f d = (d1, Ok tt)).
  { unfold update_waitlist. rewrite Hk, Ho; run_handler.
    replace (existsb (fun x => w_id x =? id) (waitlist d)) with true
      by (symmetry; apply existsb_exists; exists w; split; auto;
          now apply Z.eqb_eq).
    rewrite Cs; simpl. rewrite Hfid; reflexivity. }
  assert (G : forall x, w_id (g x) = w_id x).
  { intros x; unfold g. destruct (w_id x =? id); auto.
    simpl; rewrite Hfid; reflexivity. }
  assert (Gw : g w = set_waitlist_fields f w).
  { unfold g. apply Z.eqb_eq in Hid; rewrite Hid; reflexivity. }
  assert (S : select_waitlist id d1
              = (d1, Ok (Some (set_waitlist_fields f w)))).
  { rewrite select_waitlist_eq. simpl waitlist.
    rewrite (find_updated_row id g
               (fun x => joins d1 (w_court_id x) (w_player_id x))
               (waitlist d) w G N Hin Hid).
    rewrite Gw. change (joins d1) with (joins d). rewrite J; reflexivity. }
  destruct (patch_waitlist_cases now id f d)
    as [(e & U' & _)|(d1' & U' & H)]; rewrite U in U'; [discriminate|].
  injection U' as <-.
  destruct H as [(S' & _)|(u' & S' & H)]; rewrite S in S'; [discriminate|].
  injection S' as <-.
  change (reservations d1) with (reservations d) in H.
  destruct H as [(C & E)|(C & E)]; rewrite E.
  - destruct (conflict_query _ _ _ _); [contradiction|reflexivity].
  - rewrite C; reflexivity.
Qed.

Lemma patch_waitlist_rechecks_new_values_witness :
  NoDup (map w_id (waitlist booked_and_waiting))
  /\ joins booked_and_waiting
       (w_court_id (set_waitlist_fields
                      {| wf_id := None; wf_court_id := None;
                         wf_player_id := None;
                         wf_start_time := Some (Some (TAt 600));
                         wf_end_time := Some (Some (TAt 660));
                         wf_priority := None; wf_status := None;
                         wf_created_at := None; wf_other := [] |}
                      (entry 1 2 540 600 "waiting")))
       (w_player_id (set_waitlist_fields
                       {| wf_id := None; wf_court_id := None;
                          wf_player_id := None;
                          wf_start_time := Some (Some (TAt 600));
                          wf_end_time := Some (Some (TAt 660));
                          wf_priority := None; wf_status := None;
                          wf_created_at := None; wf_other := [] |}
                       (entry 1 2 540 600 "waiting"))) = true
  /\ code (snd (patch_waitlist 9 1
                  {| wf_id := None; wf_court_id := None;
                     wf_player_id := None;
                     wf_start_time := Some (Some (TAt 600));
                     wf_end_time := Some (Some (TAt 660));
                     wf_priority := None; wf_status := None;
                     wf_created_at := None; wf_other := [] |}
                  booked_and_waiting)) = 201.
Proof.
  assert (N : NoDup (map w_id (waitlist booked_and_waiting)))
    by (simpl; repeat constructor; simpl; tauto).
  split; [exact N|split; [reflexivity|]].
  rewrite (patch_waitlist_rechecks_new_values 9 1
             {| wf_id := None; wf_court_id := None; wf_player_id := None;
                wf_start_time := Some (Some (TAt 600));
                wf_end_time := Some (Some (TAt 660));
                wf_priority := None; wf_status := None;
                wf_created_at := None; wf_other := [] |}
             booked_and_waiting (entry 1 2 540 600 "waiting")
             N (or_introl eq_refl) eq_refl eq_refl eq_refl eq_refl eq_refl
             eq_refl).
  reflexivity.
Defined.
